(** * Share links of the playground: query string, short URL, hash decoding

    A shallow embedding of
    - [src/commons/sagas/PlaygroundSaga.ts]: the watcher that publishes the
      query string of the first editor tab ([updateQueryString]), the request
      to the URL shortener ([shortenURLRequest]) and the handler of
      [SHORTEN_URL] that races it against [delay(10000)];
    - [handleHash] of the playground page, which decodes a shared link;
    - the constants and the default workspace they read
      ([defaultEditorValue], [sourceLanguages]).

    Strings are [string]s, read as the UTF-8 bytes of the JavaScript string
    (percent-encoding works on those bytes).  JavaScript values that come
    back from the network are [jsval]s.  Generators run in a small monad
    [Saga] that threads the Redux store, logs the effects performed and
    propagates exceptions. *)

From Stdlib Require Import String Ascii List ZArith NArith Bool Lia.
From Stdlib Require Import DecimalString.
Import ListNotations.
Open Scope string_scope.

(** ** Percent-encoding: [encodeURIComponent] made strict *)

Module Uri.

(** [A-Z a-z 0-9 - _ . ~]: what strict-uri-encode leaves alone
    ([encodeURIComponent] also keeps [! ' ( ) *], which the strict variant
    escapes afterwards). *)
Definition unreserved (c : ascii) : bool :=
  let n := N_of_ascii c in
  ((65 <=? n) && (n <=? 90) || (97 <=? n) && (n <=? 122) ||
   (48 <=? n) && (n <=? 57) ||
   (n =? 45) || (n =? 95) || (n =? 46) || (n =? 126))%N.

(** Upper-case hexadecimal digit of a value below 16. *)
Definition hex_digit (n : N) : ascii :=
  if (n <? 10)%N then ascii_of_N (48 + n) else ascii_of_N (55 + n).

(** [%XX] for one byte. *)
Definition escape (c : ascii) : string :=
  let n := N_of_ascii c in
  String "%" (String (hex_digit (n / 16)) (String (hex_digit (n mod 16)) "")).

Fixpoint strictUriEncode (s : string) : string :=
  match s with
  | EmptyString => EmptyString
  | String c rest =>
      (if unreserved c then String c "" else escape c) ++ strictUriEncode rest
  end.

(** Value of a hexadecimal digit, either case. *)
Definition hex_value (c : ascii) : option N :=
  let n := N_of_ascii c in
  if ((48 <=? n) && (n <=? 57))%N then Some (n - 48)%N
  else if ((65 <=? n) && (n <=? 70))%N then Some (n - 55)%N
  else if ((97 <=? n) && (n <=? 102))%N then Some (n - 87)%N
  else None.

(** Percent-decoding, byte by byte; an escape that is not [%] followed by two
    hexadecimal digits is kept as it stands. *)
Fixpoint percent_decode (s : string) : string :=
  match s with
  | EmptyString => EmptyString
  | String c rest =>
      if (c =? "%")%char then
        match rest with
        | String h (String l rest') =>
            match hex_value h, hex_value l with
            | Some a, Some b =>
                String (ascii_of_N (16 * a + b)) (percent_decode rest')
            | _, _ => String c (percent_decode rest)
            end
        | _ => String c (percent_decode rest)
        end
      else String c (percent_decode rest)
  end.

End Uri.

(** ** Splitting and joining *)

(** [s.split(sep)] for a one-character separator: never empty. *)
Fixpoint split_on (sep : ascii) (s : string) : list string :=
  match s with
  | EmptyString => [EmptyString]
  | String c rest =>
      if (c =? sep)%char then EmptyString :: split_on sep rest
      else match split_on sep rest with
           | [] => [String c EmptyString]
           | piece :: pieces => String c piece :: pieces
           end
  end.

(** The part before the first [sep] and, when there is one, the part after. *)
Fixpoint break_at (sep : ascii) (s : string) : string * option string :=
  match s with
  | EmptyString => (EmptyString, None)
  | String c rest =>
      if (c =? sep)%char then (EmptyString, Some rest)
      else let (k, v) := break_at sep rest in (String c k, v)
  end.

(** Whether [sep] occurs in [s]. *)
Fixpoint contains (sep : ascii) (s : string) : bool :=
  match s with
  | EmptyString => false
  | String c rest => (c =? sep)%char || contains sep rest
  end.

(** [parts.join(sep)]. *)
Definition join (sep : string) (parts : list string) : string :=
  String.concat sep parts.

(** ** [qs.stringify] of the query-string package, default options *)

(** Keys in ascending order ([keys.sort()]), by insertion. *)
Fixpoint insert_by_key (kv : string * string) (l : list (string * string))
  : list (string * string) :=
  match l with
  | [] => [kv]
  | kv' :: l' =>
      if String.leb (fst kv) (fst kv') then kv :: l
      else kv' :: insert_by_key kv l'
  end.

Definition sort_by_key (l : list (string * string)) : list (string * string) :=
  fold_right insert_by_key [] l.

Definition nonempty (s : string) : bool := negb (s =? "").

(** [encode(key) + '=' + encode(value)]. *)
Definition item_of (kv : string * string) : string :=
  Uri.strictUriEncode (fst kv) ++ "=" ++ Uri.strictUriEncode (snd kv).

(** The object is given as its defined, scalar properties, each value
    already rendered as a string: sorted keys, [key=value] with both sides
    strictly percent-encoded, empty items dropped, joined by [&]. *)
Definition qs_stringify (object : list (string * string)) : string :=
  join "&" (filter nonempty (map item_of (sort_by_key object))).

(** A JavaScript number, kept as what [Number.prototype.toString] gives for
    it ([1000], [0.5], [1e+21], [NaN]): the rendering identifies the number
    up to the sign of zero, and it is all that a query string takes from the
    number. *)
Record number : Type := mkNumber { Number_toString : string }.

(** ** [parseQuery] of QueryHelper *)

(** Modelled from the spec: [parseQuery] (commons/utils/QueryHelper) is not
    among the sources.  The spec has the link decoded by "decoding the
    produced string", the string being [key=value] pairs under "standard
    percent-encoding": the leading [#] or [?] of a location hash or search is
    dropped, the rest is cut at [&], each item at its first [=], and both
    sides are percent-decoded.  The result lists the pairs in order. *)
Definition parseQuery_spec (query : string) : list (string * string) :=
  let body :=
    match query with
    | String c rest => if ((c =? "#") || (c =? "?"))%char then rest else query
    | EmptyString => query
    end in
  map (fun item =>
         let (k, v) := break_at "=" item in
         (Uri.percent_decode k,
          Uri.percent_decode (match v with Some v' => v' | None => "" end)))
      (filter nonempty (split_on "&" body)).

(** [qs.key] on the parsed object: the last pair with that key, [None] for
    [undefined]. *)
Definition query_get (qs : list (string * string)) (key : string) : option string :=
  option_map snd (find (fun kv => fst kv =? key) (rev qs)).

(** ** JavaScript values, as [JSON.parse] can deliver them *)

(** A number is kept as its [ToString] rendering, which identifies it up to
    the sign of zero. *)
#[local] Set Warnings "-register-all".
Inductive jsval : Type :=
| VUndefined
| VNull
| VBool (b : bool)
| VNum (rendering : string)
| VStr (s : string)
| VArr (items : list jsval)
| VObj (props : list (string * jsval)).

(** [ToBoolean]. *)
Definition truthy (v : jsval) : bool :=
  match v with
  | VUndefined | VNull => false
  | VBool b => b
  | VNum r => negb (r =? "0") && negb (r =? "NaN")
  | VStr s => nonempty s
  | VArr _ | VObj _ => true
  end.

(** [v === 'literal']. *)
Definition strict_eq_string (v : jsval) (literal : string) : bool :=
  match v with
  | VStr s => s =? literal
  | _ => false
  end.

(** What can be thrown. *)
Inductive js_error : Type :=
| FetchFailed          (* [fetch] rejected: no connection *)
| BodyNotJson          (* [resp.json()] rejected *)
| TypeError (reading : string) (* a property of [undefined] or [null] was read *)
| NotPrimitive.        (* TypeError: an object could not be converted to a primitive *)

Inductive completion (A : Type) : Type :=
| Normal (a : A)
| Throw (e : js_error).
Arguments Normal {A} a.
Arguments Throw {A} e.

Fixpoint own_property (props : list (string * jsval)) (name : string) : jsval :=
  match props with
  | [] => VUndefined
  | (k, v) :: props' => if k =? name then v else own_property props' name
  end.

(** Whether an object parsed from JSON has an own property of that name. *)
Definition has_own_property (props : list (string * jsval)) (name : string) : bool :=
  existsb (fun kv => fst kv =? name) props.

(** [ToString], as string concatenation with [+] applies it to its right
    operand.  An object parsed from JSON holds no function: when it has an own
    [toString] there is nothing to call and the conversion throws, otherwise
    the inherited one answers.  An array joins the renderings of its items,
    [null] giving the empty string, and throws where an item does. *)
Fixpoint ToString (v : jsval) : completion string :=
  match v with
  | VUndefined => Normal "undefined"
  | VNull => Normal "null"
  | VBool true => Normal "true"
  | VBool false => Normal "false"
  | VNum r => Normal r
  | VStr s => Normal s
  | VArr items =>
      let item x :=
        match x with VUndefined | VNull => Normal "" | _ => ToString x end in
      (fix joined (l : list jsval) : completion string :=
         match l with
         | [] => Normal ""
         | [x] => item x
         | x :: l' =>
             match item x with
             | Normal s =>
                 match joined l' with
                 | Normal rest => Normal (s ++ "," ++ rest)
                 | Throw e => Throw e
                 end
             | Throw e => Throw e
             end
         end) items
  | VObj props =>
      if has_own_property props "toString" then Throw NotPrimitive
      else Normal "[object Object]"
  end.

(** [v.name], for the names the saga reads ([status], [shorturl],
    [message], [url], [keyword]): no prototype defines any of them, so only
    own properties of objects answer; [undefined] and [null] throw. *)
Definition get (v : jsval) (name : string) : completion jsval :=
  match v with
  | VUndefined | VNull => Throw (TypeError name)
  | VObj props => Normal (own_property props name)
  | VBool _ | VNum _ | VStr _ | VArr _ => Normal VUndefined
  end.

(** ** The Redux store, as far as the saga reads and writes it *)

Record EditorTabState : Type := mkEditorTab { value : string }.

(** [state.workspaces.playground]; [context_variant] is [context.variant].
    [Variant] and [ExternalLibraryName] are string enums. *)
Record WorkspaceState : Type := mkWorkspace {
  editorTabs : list EditorTabState;
  context_variant : string;
  externalLibrary : string;
  execTime : number
}.

(** [state.playground]: both fields are optional in [PlaygroundState]. *)
Record PlaygroundState : Type := mkPlayground {
  queryString : option string;
  shortURL : option string
}.

Record OverallState : Type := mkState {
  playground : PlaygroundState;
  workspaces_playground : WorkspaceState
}.

Definition defaultEditorValue : string := "1+1".

(** The two actions the saga dispatches. *)
Inductive action : Type :=
| changeQueryString (payload : string)
| updateShortURL (payload : string).

(** Modelled from the spec: the playground reducer is not among the sources.
    The query string and the short URL are "single-slot registers": the value
    dispatched replaces the one held, "last write wins". *)
Definition register_reducer (st : OverallState) (a : action) : OverallState :=
  match a with
  | changeQueryString q =>
      mkState (mkPlayground (Some q) (shortURL (playground st)))
              (workspaces_playground st)
  | updateShortURL u =>
      mkState (mkPlayground (queryString (playground st)) (Some u))
              (workspaces_playground st)
  end.

(** ** Sagas *)

(** What a saga does that the outside sees, in order. *)
Inductive effect : Type :=
| Put (a : action)
| ShowWarningMessage (message : jsval)
| ShowSuccessMessage (message : jsval).

(** A generator run by the middleware: it reads and updates the store and
    leaves the effects it performed, then returns or throws. *)
Definition Saga (A : Type) : Type :=
  OverallState -> completion A * OverallState * list effect.

Definition store_after {A} (run : completion A * OverallState * list effect) : OverallState :=
  snd (fst run).
Definition effects {A} (run : completion A * OverallState * list effect) : list effect :=
  snd run.

Definition ret {A} (a : A) : Saga A := fun st => (Normal a, st, []).

Definition throw {A} (e : js_error) : Saga A := fun st => (Throw e, st, []).

Definition bind {A B} (m : Saga A) (k : A -> Saga B) : Saga B :=
  fun st =>
    match m st with
    | (Normal a, st1, done1) =>
        match k a st1 with
        | (c, st2, done2) => (c, st2, (done1 ++ done2)%list)
        end
    | (Throw e, st1, done1) => (Throw e, st1, done1)
    end.

Notation "x <- m ;; k" := (bind m (fun x => k))
  (at level 61, m at next level, right associativity).
Notation "m ;;; k" := (bind m (fun _ => k))
  (at level 61, right associativity).

(** [try { m } catch (_) { handler }]. *)
Definition try_catch {A} (m : Saga A) (handler : js_error -> Saga A) : Saga A :=
  fun st =>
    match m st with
    | (Normal a, st1, done1) => (Normal a, st1, done1)
    | (Throw e, st1, done1) =>
        match handler e st1 with
        | (c, st2, done2) => (c, st2, (done1 ++ done2)%list)
        end
    end.

(** [yield select(selector)]; a selector that throws makes the effect throw. *)
Definition select {A} (selector : OverallState -> completion A) : Saga A :=
  fun st => (selector st, st, []).

(** [yield call(showWarningMessage, m)] and [yield call(showSuccessMessage, m)]. *)
Definition call_showWarningMessage (m : jsval) : Saga unit :=
  fun st => (Normal tt, st, [ShowWarningMessage m]).

Definition call_showSuccessMessage (m : jsval) : Saga unit :=
  fun st => (Normal tt, st, [ShowSuccessMessage m]).

(** A property read inside a generator. *)
Definition read (v : jsval) (name : string) : Saga jsval :=
  fun st => (get v name, st, []).

(** The conversion of the right operand of [+] inside a generator. *)
Definition render (v : jsval) : Saga string :=
  fun st => (ToString v, st, []).

(** An asynchronous call: when it settles, if ever, in milliseconds from its
    start, and how. *)
Record promise (A : Type) : Type := mkPromise {
  settles_after : option N;
  settled : completion A
}.
Arguments mkPromise {A}.
Arguments settles_after {A}.
Arguments settled {A}.

(** What [fetch] does with a request. *)
Inductive fetch_result : Type :=
| NetworkError
| HttpResponse (ok : bool) (body : option jsval).
   (* [body]: what [resp.json()] resolves to; [None] when the body does not parse *)

Record reply : Type := mkReply {
  reply_after : option N;
  fetched : fetch_result
}.

(** The three ways a request fails: no connection, a status that is not OK,
    a body that does not parse. *)
Inductive request_fails : fetch_result -> Prop :=
| fails_connection : request_fails NetworkError
| fails_status (body : option jsval) : request_fails (HttpResponse false body)
| fails_body : request_fails (HttpResponse true None).

(** The delay of [ms] ends before the reply is there, if it ever is. *)
Definition delay_ends_first (ms : N) (r : reply) : Prop :=
  match reply_after r with
  | Some t => (ms < t)%N
  | None => True
  end.

(** ** Stores, payloads and stand-ins to run the sagas on *)

Module Example.

(** A playground with a program in its first tab and nothing published. *)
Definition store : OverallState :=
  mkState (mkPlayground None None)
          (mkWorkspace [mkEditorTab "display(1 + 2);"] "default" "NONE" (mkNumber "1000")).

(** The same playground after a first publication and an edit. *)
Definition edited : OverallState :=
  mkState (mkPlayground
             (Some "exec=1000&ext=NONE&prgrm=display%281%20%2B%202%29%3B&variant=default")
             None)
          (mkWorkspace [mkEditorTab "display(3);"] "default" "NONE" (mkNumber "1000")).

(** A playground that still shows the placeholder. *)
Definition untouched : OverallState :=
  mkState (mkPlayground None None)
          (mkWorkspace [mkEditorTab defaultEditorValue] "default" "NONE" (mkNumber "1000")).

(** A network that answers every request alike. *)
Definition answers (after : option N) (r : fetch_result)
  : string -> list (string * string) -> reply :=
  fun _ _ => mkReply after r.

(** Payloads of the shortener: a link created, a keyword taken, a keyword
    refused, a success without [url], a refusal with an empty [shorturl]. *)
Definition created : jsval :=
  VObj [("status", VStr "success"); ("shorturl", VStr "https://sho.rt/abc");
        ("url", VObj [("keyword", VStr "abc")])].

Definition taken : jsval :=
  VObj [("status", VStr "fail"); ("message", VStr "abc already exists");
        ("shorturl", VStr "https://sho.rt/abc");
        ("url", VObj [("keyword", VStr "abc")])].

Definition refused : jsval :=
  VObj [("status", VStr "fail"); ("message", VStr "bad keyword")].

Definition success_without_url : jsval :=
  VObj [("status", VStr "success")].

Definition empty_shorturl : jsval :=
  VObj [("status", VStr "fail"); ("message", VStr "abc already exists");
        ("shorturl", VStr ""); ("url", VObj [("keyword", VStr "abc")])].

(** A stand-in for [stringParamToInt]: the integer a string spells in
    decimal, if it spells one. *)
Definition decimal (param : option string) : option Z :=
  match param with
  | Some s => option_map Z.of_int (NilZero.int_of_string s)
  | None => None
  end.

End Example.

(** The store, the shortener and the page, as the saga finds them. *)
Section Playground.

(** The root reducer of the store, and [parseQuery] of QueryHelper: the
    parsed pairs in order, read with [query_get]. *)
Variable reducer : OverallState -> action -> OverallState.
Variable parseQuery : string -> list (string * string).

(** [Constants.urlShortenerBase], [Constants.urlShortenerSignature]. *)
Variable urlShortenerBase urlShortenerSignature : string.

(** [window.location.protocol], [window.location.host]. *)
Variable location_protocol location_host : string.

(** The network: URL and form data of a POST to what comes of it. *)
Variable fetch : string -> list (string * string) -> reply.

(** Which of two racers the event loop resumes first when the request
    settles in the very millisecond the delay ends. *)
Variable call_first_on_tie : bool.

(** lz-string. *)
Variable compressToEncodedURIComponent : string -> string.
Variable decompressFromEncodedURIComponent : string -> option string.

(** [stringParamToInt] of ParamParseHelper: an integer, or [None] for what
    is no number ([null], [NaN]). *)
Variable stringParamToInt : option string -> option Z.

(** [Chapter.CALC] and [Variant.DEFAULT] of c-slang. *)
Variable Chapter_CALC : Z.
Variable Variant_DEFAULT : string.

(** [yield put(a)]: the store takes the action before the saga resumes. *)
Definition put (a : action) : Saga unit :=
  fun st => (Normal tt, reducer st a, [Put a]).

(** *** [updateQueryString] *)

(** [editorTabs[0].value]: reading [value] of a missing tab throws. *)
Definition firstTabValue (st : OverallState) : completion string :=
  match editorTabs (workspaces_playground st) with
  | tab :: _ => Normal (value tab)
  | [] => Throw (TypeError "value")
  end.

Definition updateQueryString : Saga unit :=
  code <- select firstTabValue ;;
  if negb (nonempty code) || (code =? defaultEditorValue) then
    put (changeQueryString "")
  else
    variant <- select (fun st => Normal (context_variant (workspaces_playground st))) ;;
    external <- select (fun st => Normal (externalLibrary (workspaces_playground st))) ;;
    execTime <- select (fun st => Normal (execTime (workspaces_playground st))) ;;
    let newQueryString :=
      qs_stringify [("prgrm", compressToEncodedURIComponent code);
                    ("variant", variant);
                    ("ext", external);
                    ("exec", Number_toString execTime)] in
    put (changeQueryString newQueryString).

(** *** [shortenURLRequest] *)

(** A template literal renders a missing query string as [undefined]. *)
Definition interpolate (s : option string) : string :=
  match s with Some s' => s' | None => "undefined" end.

(** The request goes out: [url], [params], [fetchOpts] and the [fetch]. *)
Definition shortener_reply (queryString : option string) (keyword : string) : reply :=
  let url := location_protocol ++ "//" ++ location_host ++ "/playground#"
             ++ interpolate queryString in
  let params := [("signature", urlShortenerSignature);
                 ("action", "shorturl");
                 ("format", "json");
                 ("keyword", keyword);
                 ("url", url)] in
  fetch (urlShortenerBase ++ "yourls-api.php") params.

(** [null] for a response that is not OK, else the parsed body; a failed
    [fetch] and a body that does not parse reject the promise. *)
Definition shortenURLRequest (queryString : option string) (keyword : string)
  : promise jsval :=
  let resp := shortener_reply queryString keyword in
  mkPromise (reply_after resp)
    match fetched resp with
    | NetworkError => Throw FetchFailed
    | HttpResponse ok body =>
        if negb ok then Normal VNull
        else match body with
             | Some res => Normal res
             | None => Throw BodyNotJson
             end
    end.

(** *** The handler of [SHORTEN_URL] *)

(** [race({ result: call(p), hasTimedOut: delay(ms) })]: the racer that
    finishes first fills its key and the other key stays [undefined]; a
    call that finishes first by throwing makes the race throw.  The delay
    always ends, so the race does. *)
Definition call_finishes_first {A} (p : promise A) (ms : N) : bool :=
  match settles_after p with
  | Some t => (t <? ms)%N || ((t =? ms)%N && call_first_on_tie)
  | None => false
  end.

Definition race_call_delay (p : promise jsval) (ms : N) : Saga (jsval * jsval) :=
  if call_finishes_first p ms then
    match settled p with
    | Normal v => ret (v, VUndefined)
    | Throw e => throw e
    end
  else ret (VUndefined, VBool true).

(** From [if (!resp || timeout)] to the end of the handler. *)
Definition conclude (resp timeout : jsval) : Saga unit :=
  let errorMsg := "ERROR" in
  if negb (truthy resp) || truthy timeout then
    put (updateShortURL errorMsg) ;;;
    call_showWarningMessage (VStr "Something went wrong trying to create the link.")
  else
    status <- read resp "status" ;;
    shorturl <- read resp "shorturl" ;;
    if negb (strict_eq_string status "success") && negb (truthy shorturl) then
      put (updateShortURL errorMsg) ;;;
      message <- read resp "message" ;;
      call_showWarningMessage message
    else
      (if negb (strict_eq_string status "success") then
         message <- read resp "message" ;;
         call_showSuccessMessage message
       else ret tt) ;;;
      url <- read resp "url" ;;
      delivered <- read url "keyword" ;;
      rendered <- render delivered ;;
      put (updateShortURL (urlShortenerBase ++ rendered)).

(** [resp] and [timeout] stay [undefined] when the race throws. *)
Definition shortenURLHandler (keyword : string) : Saga unit :=
  queryString <- select (fun st => Normal (queryString (playground st))) ;;
  resp_timeout <-
    try_catch
      (race_call_delay (shortenURLRequest queryString keyword) 10000)
      (fun _ => ret (VUndefined, VUndefined)) ;;
  conclude (fst resp_timeout) (snd resp_timeout).

(** The run that ends in the sentinel and the standard warning. *)
Definition generic_failure (st : OverallState)
  : completion unit * OverallState * list effect :=
  (Normal tt,
   reducer st (updateShortURL "ERROR"),
   [Put (updateShortURL "ERROR");
    ShowWarningMessage (VStr "Something went wrong trying to create the link.")]).

(** *** [PlaygroundSaga]: what [takeEvery] starts for each action *)

Inductive trigger : Type :=
| GENERATE_LZ_STRING
| SHORTEN_URL (keyword : string).

Definition PlaygroundSaga (a : trigger) : Saga unit :=
  match a with
  | GENERATE_LZ_STRING => updateQueryString
  | SHORTEN_URL keyword => shortenURLHandler keyword
  end.

(** *** The editor snapshot and its encoding, in the words of the spec *)

Record EditorSnapshot : Type := mkSnapshot {
  text : string;
  snap_variant : string;
  snap_externalLibrary : string;
  execTimeBudgetMs : number
}.

(** The snapshot the watcher reads: the first tab's text and the three
    selectors; there is none without a first tab. *)
Definition snapshot (st : OverallState) : option EditorSnapshot :=
  let w := workspaces_playground st in
  match editorTabs w with
  | tab :: _ =>
      Some (mkSnapshot (value tab) (context_variant w) (externalLibrary w) (execTime w))
  | [] => None
  end.

(** Spec 4.1, [encode]: the empty string for an empty or placeholder text,
    else the query string of the compressed text and the three selectors. *)
Definition encode (s : EditorSnapshot) : string :=
  if (text s =? "") || (text s =? defaultEditorValue) then ""
  else qs_stringify [("prgrm", compressToEncodedURIComponent (text s));
                     ("variant", snap_variant s);
                     ("ext", snap_externalLibrary s);
                     ("exec", Number_toString (execTimeBudgetMs s))].

(** *** [handleHash] of the playground page *)

Record Language : Type := mkLanguage { language_chapter : Z; language_variant : string }.

Definition sublanguages : list Language :=
  [mkLanguage Chapter_CALC Variant_DEFAULT].

(** [sourceLanguages] adds a display name to each, which nothing here reads. *)
Definition sourceLanguages : list Language := sublanguages.

(** The callbacks of the page's props that [handleHash] invokes. *)
Inductive prop_call : Type :=
| handleEditorValueChange (newEditorValue : string)
| handleChapterSelect (chapter : Z) (variant : string)
| handleChangeExecTime (execTime : Z).

(** [x || fallback] on a number or [null]: zero is falsy too. *)
Definition number_or (x : option Z) (fallback : Z) : Z :=
  match x with
  | Some n => if (n =? 0)%Z then fallback else n
  | None => fallback
  end.

(** [s || fallback] on a string or [undefined]. *)
Definition string_or (s : option string) (fallback : string) : string :=
  match s with
  | Some s' => if nonempty s' then s' else fallback
  | None => fallback
  end.

(** The calls made, in order.  [program] is [None] for [undefined] and
    [null]. *)
Definition handleHash (hash : string) : list prop_call :=
  let qs := parseQuery hash in
  let chapter : option Z :=
    match stringParamToInt (query_get qs "chap") with
    | Some n => if (n =? 0)%Z then None else Some n
    | None => None
    end in
  let programLz :=
    match query_get qs "lz" with
    | Some lz => Some lz
    | None => query_get qs "prgrm"
    end in
  let program :=
    match programLz with
    | Some lz => if nonempty lz then decompressFromEncodedURIComponent lz else Some lz
    | None => None
    end in
  let variant :=
    match find (fun language =>
                  match chapter, query_get qs "variant" with
                  | Some c, Some v =>
                      (language_chapter language =? c)%Z && (language_variant language =? v)
                  | _, _ => false
                  end) sourceLanguages with
    | Some language => language_variant language
    | None => Variant_DEFAULT
    end in
  let execTime :=
    Z.max (number_or (stringParamToInt (Some (string_or (query_get qs "exec") "1000"))) 1000)
          1000 in
  ((match program with
    | Some p => if nonempty p then [handleEditorValueChange p] else []
    | None => []
    end)
   ++ (match chapter with
       | Some c => [handleChapterSelect c variant]
       | None => []
       end)
   ++ (if (execTime =? 0)%Z then [] else [handleChangeExecTime execTime]))%list.

(** *** The default workspace and the default state *)

(** [Constants.defaultSourceVariant] and [ExternalLibraryName.NONE]. *)
Variable defaultSourceVariant : string.
Variable ExternalLibraryName_NONE : string.

(** [xs.includes(x)] on strings. *)
Definition includes (xs : list string) (x : string) : bool :=
  existsb (fun y => y =? x) xs.

(** The fields of the workspace that the saga reads; the context made by
    [createContext] carries the variant it is given. *)
Definition createDefaultWorkspace (workspaceLocation : string) : WorkspaceState :=
  mkWorkspace
    [mkEditorTab
       (if includes ["playground"; "sourcecast"; "githubAssessments"] workspaceLocation
        then defaultEditorValue
        else "")]
    defaultSourceVariant
    ExternalLibraryName_NONE
    (mkNumber "1000").

(** [defaultPlayground] sets neither the query string nor the short URL. *)
Definition defaultPlayground : PlaygroundState := mkPlayground None None.

(** [defaultState], with [defaultWorkspaceManager.playground]. *)
Definition defaultState : OverallState :=
  mkState defaultPlayground (createDefaultWorkspace "playground").

(** *** The callbacks of the playground page *)

(** Members of [SideContentType], a string enum. *)
Variable substVisualizer mobileEditorRun mobileEditor introduction : string.

(** An entry of the event log: here only [type: 'chapterSelect']. *)
Inductive Input : Type :=
| chapterSelect (time : Z) (data : Z).

(** What a callback of the page calls: callbacks of the props, the setters
    of its own state, the event log.  A breakpoint array may have holes. *)
Inductive page_call : Type :=
| props_call (c : prop_call)
| handleUsingSubst (usingSubst : bool)
| handleReplOutputClear
| props_handleEditorUpdateBreakpoints (breakpoints : list (option string))
| setSelectedTab (tab : string)
| setHasBreakpoints (b : bool)
| log (sessionId : Z) (input : Input).

(** The state of the page that the callbacks close over, and the chapter
    they read from the props. *)
Record page : Type := mkPage {
  selectedTab : string;
  hasBreakpoints : bool;
  playgroundSourceChapter : Z;
  sessionId : Z
}.

(** The state after the setters among the calls have run. *)
Fixpoint rerender (pg : page) (calls : list page_call) : page :=
  match calls with
  | [] => pg
  | setSelectedTab tab :: calls' =>
      rerender (mkPage tab (hasBreakpoints pg) (playgroundSourceChapter pg) (sessionId pg)) calls'
  | setHasBreakpoints b :: calls' =>
      rerender (mkPage (selectedTab pg) b (playgroundSourceChapter pg) (sessionId pg)) calls'
  | _ :: calls' => rerender pg calls'
  end.

Definition onChangeTabs (pg : page) (newTabId prevTabId : string) : list page_call :=
  if newTabId =? prevTabId then []
  else if negb ((prevTabId =? substVisualizer) && (newTabId =? mobileEditorRun)) then
    ((if (playgroundSourceChapter pg <=? 2)%Z && (newTabId =? substVisualizer)
      then [handleUsingSubst true] else [])
     ++ (if (prevTabId =? substVisualizer) && negb (hasBreakpoints pg)
         then [handleReplOutputClear; handleUsingSubst false] else [])
     ++ [setSelectedTab newTabId])%list
  else [].

(** [now] is [Date.now()]. *)
Definition chapterSelectHandler (pg : page) (now : Z) (chapter : Z) (variant : string)
  : list page_call :=
  ((if ((chapter <=? 2)%Z && hasBreakpoints pg) || (selectedTab pg =? substVisualizer)
    then [handleUsingSubst true] else [])
   ++ (if (2 <? chapter)%Z then [handleReplOutputClear; handleUsingSubst false] else [])
   ++ [log (sessionId pg) (chapterSelect now chapter);
       props_call (handleChapterSelect chapter variant)])%list.

(** [!!arrayItem]: a hole and the empty string do not count. *)
Definition is_breakpoint (arrayItem : option string) : bool :=
  match arrayItem with
  | Some s => nonempty s
  | None => false
  end.

Definition handleEditorUpdateBreakpoints (pg : page) (breakpoints : list (option string))
  : list page_call :=
  let numberOfBreakpoints := List.length (filter is_breakpoint breakpoints) in
  ((if (0 <? numberOfBreakpoints)%nat then
      setHasBreakpoints true ::
      (if (playgroundSourceChapter pg <=? 2)%Z then [handleUsingSubst true] else [])
    else [])
   ++ (if (numberOfBreakpoints =? 0)%nat then
         setHasBreakpoints false ::
         (if negb (selectedTab pg =? substVisualizer)
          then [handleReplOutputClear; handleUsingSubst false] else [])
       else [])
   ++ [props_handleEditorUpdateBreakpoints breakpoints])%list.

Definition mobileOnlyTabIds : list string := [mobileEditor; mobileEditorRun].
Definition desktopOnlyTabIds : list string := [introduction].

(** The effect that moves the selection when the breakpoint of the layout
    is crossed. *)
Definition toggleTabs (isMobileBreakpoint : bool) (pg : page) : list page_call :=
  if isMobileBreakpoint && includes desktopOnlyTabIds (selectedTab pg) then
    [setSelectedTab mobileEditor]
  else if negb isMobileBreakpoint && includes mobileOnlyTabIds (selectedTab pg) then
    [setSelectedTab introduction]
  else [].

(** The effect on the hash of the location: an absent or empty hash leaves
    the course's language to apply, if the course has one. *)
Definition onHash (hash : option string)
                  (courseSourceChapter : option Z) (courseSourceVariant : option string)
  : list prop_call :=
  match hash with
  | Some h =>
      if nonempty h then handleHash h
      else match courseSourceChapter, courseSourceVariant with
           | Some c, Some v =>
               if negb (c =? 0)%Z && nonempty v then [handleChapterSelect c v] else []
           | _, _ => []
           end
  | None =>
      match courseSourceChapter, courseSourceVariant with
      | Some c, Some v =>
          if negb (c =? 0)%Z && nonempty v then [handleChapterSelect c v] else []
      | _, _ => []
      end
  end.

(** ** Percent-encoding is undone by percent-decoding *)

Ltac each_byte c := destruct c as [[] [] [] [] [] [] [] []].

Lemma unreserved_not_percent (c : ascii) :
  Uri.unreserved c = true -> (c =? "%")%char = false.
Proof. each_byte c; vm_compute; congruence. Qed.

Lemma decode_escape (c : ascii) (t : string) :
  Uri.percent_decode (Uri.escape c ++ t) = String c (Uri.percent_decode t).
Proof. each_byte c; reflexivity. Qed.

Lemma append_assoc (s t u : string) : (s ++ t) ++ u = s ++ (t ++ u).
Proof. induction s; simpl; congruence. Qed.

Lemma decode_encode_app (s t : string) :
  Uri.percent_decode (Uri.strictUriEncode s ++ t) = s ++ Uri.percent_decode t.
Proof.
  induction s as [|c s IH]; simpl; [reflexivity|].
  destruct (Uri.unreserved c) eqn:U.
  - simpl. rewrite (unreserved_not_percent c U), IH. reflexivity.
  - rewrite append_assoc, decode_escape, IH. reflexivity.
Qed.

Lemma append_empty_r (s : string) : s ++ "" = s.
Proof. induction s; simpl; congruence. Qed.

Lemma decode_encode (s : string) :
  Uri.percent_decode (Uri.strictUriEncode s) = s.
Proof.
  rewrite <- (append_empty_r (Uri.strictUriEncode s)), decode_encode_app.
  simpl. apply append_empty_r.
Qed.

(** An encoded string holds none of the separators of a query string. *)
Lemma contains_app (sep : ascii) (s t : string) :
  contains sep (s ++ t) = contains sep s || contains sep t.
Proof.
  induction s as [|c s IH]; simpl; [reflexivity|].
  rewrite IH. apply orb_assoc.
Qed.

Lemma encoded_byte_clean (c : ascii) :
  let piece := if Uri.unreserved c then String c "" else Uri.escape c in
  contains "&" piece = false /\ contains "=" piece = false /\
  contains "#" piece = false /\ contains "?" piece = false.
Proof. each_byte c; vm_compute; repeat split. Qed.

Lemma encoded_clean (s : string) :
  contains "&" (Uri.strictUriEncode s) = false /\
  contains "=" (Uri.strictUriEncode s) = false /\
  contains "#" (Uri.strictUriEncode s) = false /\
  contains "?" (Uri.strictUriEncode s) = false.
Proof.
  induction s as [|c s (IH1 & IH2 & IH3 & IH4)]; simpl; [repeat split|].
  destruct (encoded_byte_clean c) as (H1 & H2 & H3 & H4).
  rewrite !contains_app, H1, H2, H3, H4, IH1, IH2, IH3, IH4. repeat split.
Qed.

(** ** Cutting a joined string gives the pieces back *)

Lemma split_on_clean (sep : ascii) (s : string) :
  contains sep s = false -> split_on sep s = [s].
Proof.
  induction s as [|c s IH]; simpl; [reflexivity|].
  intros H. apply orb_false_iff in H as [Hc Hs].
  rewrite Hc, (IH Hs). reflexivity.
Qed.

Lemma split_on_app (sep : ascii) (s rest : string) :
  contains sep s = false ->
  split_on sep (s ++ String sep rest) = s :: split_on sep rest.
Proof.
  induction s as [|c s IH]; simpl.
  - intros _. rewrite Ascii.eqb_refl. reflexivity.
  - intros H. apply orb_false_iff in H as [Hc Hs].
    rewrite Hc, (IH Hs). reflexivity.
Qed.

Lemma break_at_app (sep : ascii) (k v : string) :
  contains sep k = false -> break_at sep (k ++ String sep v) = (k, Some v).
Proof.
  induction k as [|c k IH]; simpl.
  - intros _. rewrite Ascii.eqb_refl. reflexivity.
  - intros H. apply orb_false_iff in H as [Hc Hk].
    rewrite Hc, (IH Hk). reflexivity.
Qed.

(** ** Decoding a query string as the spec has it undoes [qs.stringify] *)

Lemma item_nonempty (kv : string * string) : nonempty (item_of kv) = true.
Proof. unfold item_of. destruct (Uri.strictUriEncode (fst kv)); reflexivity. Qed.

Lemma item_clean (kv : string * string) :
  contains "&" (item_of kv) = false /\ contains "#" (item_of kv) = false /\
  contains "?" (item_of kv) = false.
Proof.
  unfold item_of.
  destruct (encoded_clean (fst kv)) as (K1 & _ & K3 & K4).
  destruct (encoded_clean (snd kv)) as (V1 & _ & V3 & V4).
  rewrite !contains_app. simpl. rewrite K1, K3, K4, V1, V3, V4. repeat split.
Qed.

Lemma filter_items (l : list (string * string)) :
  filter nonempty (map item_of l) = map item_of l.
Proof.
  induction l as [|kv l IH]; simpl; [reflexivity|].
  rewrite item_nonempty, IH. reflexivity.
Qed.

Lemma split_joined_items (kv : string * string) (l : list (string * string)) :
  split_on "&" (join "&" (map item_of (kv :: l))) = map item_of (kv :: l).
Proof.
  revert kv. induction l as [|kv' l IH]; intros kv.
  - simpl. apply split_on_clean, item_clean.
  - change (join "&" (map item_of (kv :: kv' :: l)))
      with (item_of kv ++ String "&" (join "&" (map item_of (kv' :: l)))).
    rewrite split_on_app by apply item_clean.
    rewrite IH. reflexivity.
Qed.

Lemma parse_item (kv : string * string) :
  (let (k, v) := break_at "=" (item_of kv) in
   (Uri.percent_decode k,
    Uri.percent_decode (match v with Some v' => v' | None => "" end))) = kv.
Proof.
  unfold item_of. simpl append.
  rewrite break_at_app by apply encoded_clean.
  rewrite !decode_encode. destruct kv; reflexivity.
Qed.

Lemma parse_items (l : list (string * string)) :
  map (fun item =>
         let (k, v) := break_at "=" item in
         (Uri.percent_decode k,
          Uri.percent_decode (match v with Some v' => v' | None => "" end)))
      (filter nonempty (split_on "&" (join "&" (map item_of l)))) = l.
Proof.
  destruct l as [|kv l]; [reflexivity|].
  rewrite split_joined_items, filter_items, map_map.
  rewrite <- (map_id (kv :: l)) at 2.
  apply map_ext. intros a. apply parse_item.
Qed.

Lemma qs_stringify_items (object : list (string * string)) :
  qs_stringify object = join "&" (map item_of (sort_by_key object)).
Proof. unfold qs_stringify. rewrite filter_items. reflexivity. Qed.

(** The query string of an object starts with no [#] and no [?]. *)
Lemma joined_items_clean (l : list (string * string)) :
  contains "#" (join "&" (map item_of l)) = false /\
  contains "?" (join "&" (map item_of l)) = false.
Proof.
  induction l as [|kv l [IH1 IH2]]; [split; reflexivity|].
  destruct (item_clean kv) as (_ & H3 & H4).
  destruct l as [|kv' l]; [simpl; split; assumption|].
  change (join "&" (map item_of (kv :: kv' :: l)))
    with (item_of kv ++ String "&" (join "&" (map item_of (kv' :: l)))).
  set (tail := join "&" (map item_of (kv' :: l))) in *.
  rewrite !contains_app. cbn [contains].
  rewrite H3, H4, IH1, IH2. split; reflexivity.
Qed.

(** Behind a [#], as in a location hash, or bare. *)
Lemma parseQuery_stringify (object : list (string * string)) :
  parseQuery_spec (String "#" (qs_stringify object)) = sort_by_key object /\
  parseQuery_spec (qs_stringify object) = sort_by_key object.
Proof.
  rewrite qs_stringify_items. split.
  - unfold parseQuery_spec. simpl. apply parse_items.
  - unfold parseQuery_spec.
    destruct (joined_items_clean (sort_by_key object)) as [H1 H2].
    pose proof (parse_items (sort_by_key object)) as P.
    set (q := join "&" (map item_of (sort_by_key object))) in *.
    clearbody q. destruct q as [|c rest]; [exact P|].
    simpl in H1, H2.
    apply orb_false_iff in H1 as [H1 _]. apply orb_false_iff in H2 as [H2 _].
    rewrite H1, H2. exact P.
Qed.

(** ** The handler of [SHORTEN_URL] *)

(** The handler is its conclusion, run on what the race hands over. *)
Lemma race_decides (keyword : string) (st : OverallState) :
  shortenURLHandler keyword st =
  let p := shortenURLRequest (queryString (playground st)) keyword in
  if call_finishes_first p 10000 then
    match settled p with
    | Normal v => conclude v VUndefined st
    | Throw _ => conclude VUndefined VUndefined st
    end
  else conclude VUndefined (VBool true) st.
Proof.
  unfold shortenURLHandler, bind, select, try_catch, race_call_delay.
  cbv zeta.
  destruct (call_finishes_first _ 10000).
  - destruct (settled _) as [v|e]; unfold ret, throw; cbn [fst snd];
      match goal with |- context [conclude ?a ?b st] =>
        destruct (conclude a b st) as [[c st'] done] end; reflexivity.
  - unfold ret; cbn [fst snd].
    destruct (conclude VUndefined (VBool true) st) as [[c st'] done]; reflexivity.
Qed.

Lemma conclude_generic (resp timeout : jsval) (st : OverallState) :
  negb (truthy resp) || truthy timeout = true ->
  conclude resp timeout st = generic_failure st.
Proof. unfold conclude. intros ->. reflexivity. Qed.

(** A reply in time hands the request's own completion to the handler. *)
Lemma reply_in_time (q : option string) (keyword : string) (t : N) :
  reply_after (shortener_reply q keyword) = Some t -> (t < 10000)%N ->
  call_finishes_first (shortenURLRequest q keyword) 10000 = true.
Proof.
  intros E H. unfold call_finishes_first, shortenURLRequest. simpl. rewrite E.
  apply N.ltb_lt in H. rewrite H. reflexivity.
Qed.

Lemma delay_first (q : option string) (keyword : string) :
  delay_ends_first 10000 (shortener_reply q keyword) ->
  call_finishes_first (shortenURLRequest q keyword) 10000 = false.
Proof.
  unfold delay_ends_first, call_finishes_first, shortenURLRequest. simpl.
  destruct (reply_after _) as [t|]; [|reflexivity].
  intros H.
  assert ((t <? 10000)%N = false) as -> by (apply N.ltb_ge; lia).
  assert ((t =? 10000)%N = false) as -> by (apply N.eqb_neq; lia).
  reflexivity.
Qed.

(** A payload that arrives in time, OK and parsed, is what [conclude] sees. *)
Lemma payload_in_time (keyword : string) (st : OverallState) (t : N) (payload : jsval) :
  shortener_reply (queryString (playground st)) keyword
    = mkReply (Some t) (HttpResponse true (Some payload)) ->
  (t < 10000)%N ->
  shortenURLHandler keyword st = conclude payload VUndefined st.
Proof.
  intros E H. rewrite race_decides. cbv zeta.
  rewrite (reply_in_time _ _ t); [|rewrite E; reflexivity|assumption].
  unfold shortenURLRequest. rewrite E. reflexivity.
Qed.

(** C2: a request that fails (no connection, a status that is not OK, a
    body that does not parse) or a delay of 10 seconds that ends before the
    reply sets the short URL to ["ERROR"] and shows the warning "Something
    went wrong trying to create the link." *)
Theorem C2_failure_or_timeout_is_generic_error (keyword : string) (st : OverallState) :
  let r := shortener_reply (queryString (playground st)) keyword in
  request_fails (fetched r) \/ delay_ends_first 10000 r ->
  shortenURLHandler keyword st = generic_failure st /\
  store_after (shortenURLHandler keyword st) = reducer st (updateShortURL "ERROR") /\
  effects (shortenURLHandler keyword st) =
    [Put (updateShortURL "ERROR");
     ShowWarningMessage (VStr "Something went wrong trying to create the link.")].
Proof.
  intros r H.
  assert (shortenURLHandler keyword st = generic_failure st) as E.
  { rewrite race_decides. cbv zeta.
    destruct H as [H|H].
    - destruct (call_finishes_first _ 10000); [|apply conclude_generic; reflexivity].
      unfold shortenURLRequest. fold r. cbn [settled].
      destruct H; cbn [negb]; apply conclude_generic; reflexivity.
    - rewrite (delay_first _ _ H). apply conclude_generic; reflexivity. }
  rewrite E. repeat split.
Qed.

Lemma not_success (status : jsval) :
  status <> VStr "success" -> strict_eq_string status "success" = false.
Proof.
  intros H. destruct status; try reflexivity. simpl.
  apply String.eqb_neq. congruence.
Qed.

(** Only an object answers a property read with something defined. *)
Lemma get_defined (v : jsval) (name : string) (x : jsval) :
  get v name = Normal x -> x <> VUndefined -> truthy v = true.
Proof. destruct v; simpl; intros E H; try discriminate; congruence. Qed.

(** C3, at the input that breaks it: a payload that reports success without
    a [url] passes both guards and the handler throws on [resp.url.keyword];
    nothing is dispatched and no notification is shown. *)
Theorem C3_payload_without_url_throws
  (keyword : string) (st : OverallState) (t : N) (payload : jsval) :
  shortener_reply (queryString (playground st)) keyword
    = mkReply (Some t) (HttpResponse true (Some payload)) ->
  (t < 10000)%N ->
  get payload "status" = Normal (VStr "success") ->
  get payload "url" = Normal VUndefined ->
  shortenURLHandler keyword st = (Throw (TypeError "keyword"), st, []).
Proof.
  intros E Ht Hs Hu. rewrite (payload_in_time _ _ t payload E Ht).
  unfold conclude.
  rewrite (get_defined _ _ _ Hs) by discriminate.
  unfold bind, read, ret, put. rewrite Hs, Hu.
  destruct payload; try discriminate. reflexivity.
Qed.

(** What [conclude] makes of a payload, by what the payload says. *)
Lemma conclude_success (payload url : jsval) (delivered : string) (st : OverallState) :
  get payload "status" = Normal (VStr "success") ->
  get payload "url" = Normal url ->
  get url "keyword" = Normal (VStr delivered) ->
  conclude payload VUndefined st =
    (Normal tt,
     reducer st (updateShortURL (urlShortenerBase ++ delivered)),
     [Put (updateShortURL (urlShortenerBase ++ delivered))]).
Proof.
  intros Hs Hu Hk. unfold conclude.
  rewrite (get_defined _ _ _ Hs) by discriminate.
  unfold bind, read, render, ret, put. rewrite Hs, Hu, Hk.
  destruct payload; try discriminate. simpl in *.
  destruct (own_property props "shorturl"); reflexivity.
Qed.

Lemma conclude_degraded
  (payload status shorturl message url : jsval) (delivered : string) (st : OverallState) :
  get payload "status" = Normal status -> status <> VStr "success" ->
  get payload "shorturl" = Normal shorturl -> truthy shorturl = true ->
  get payload "message" = Normal message ->
  get payload "url" = Normal url ->
  get url "keyword" = Normal (VStr delivered) ->
  conclude payload VUndefined st =
    (Normal tt,
     reducer st (updateShortURL (urlShortenerBase ++ delivered)),
     [ShowSuccessMessage message;
      Put (updateShortURL (urlShortenerBase ++ delivered))]).
Proof.
  intros Hs Hne Hsh Htr Hm Hu Hk. unfold conclude.
  assert (truthy payload = true) as ->.
  { apply (get_defined _ _ _ Hsh). intros ->. discriminate. }
  unfold bind, read, render, ret, put, call_showSuccessMessage.
  rewrite Hs, Hsh, Hm, Hu, Hk, (not_success _ Hne), Htr. reflexivity.
Qed.

Lemma conclude_refusal (payload status shorturl message : jsval) (st : OverallState) :
  truthy payload = true ->
  get payload "status" = Normal status -> status <> VStr "success" ->
  get payload "shorturl" = Normal shorturl -> truthy shorturl = false ->
  get payload "message" = Normal message ->
  conclude payload VUndefined st =
    (Normal tt,
     reducer st (updateShortURL "ERROR"),
     [Put (updateShortURL "ERROR"); ShowWarningMessage message]).
Proof.
  intros Htr Hs Hne Hsh Hfalsy Hm. unfold conclude. rewrite Htr.
  unfold bind, read, ret, put, call_showWarningMessage.
  rewrite Hs, Hsh, Hm, (not_success _ Hne), Hfalsy. reflexivity.
Qed.

(** A parsed payload that is there before the delay ends is what [conclude]
    sees, with no timeout. *)
Lemma payload_first (keyword : string) (st : OverallState) (t : N) (payload : jsval) :
  reply_after (shortener_reply (queryString (playground st)) keyword) = Some t ->
  (t < 10000)%N ->
  fetched (shortener_reply (queryString (playground st)) keyword)
    = HttpResponse true (Some payload) ->
  shortenURLHandler keyword st = conclude payload VUndefined st.
Proof.
  intros Ht H Hf. apply (payload_in_time keyword st t payload); [|exact H].
  destruct (shortener_reply (queryString (playground st)) keyword) as [after got].
  simpl in Ht, Hf. rewrite Ht, Hf. reflexivity.
Qed.

(** C4: when the request and the delay of 10 seconds both end, the one that
    ends first decides.  After the delay the run is the sentinel and the
    standard warning, whatever the request brings later.  Before it, the run
    is the reply's own verdict and the delay adds nothing to it: the generic
    failure for a request that failed, the single dispatch of the base and
    the keyword for a success, that dispatch after the success notification
    for a degraded success, the sentinel and the payload's message for a
    refusal. *)
Theorem C4_first_to_finish_decides (keyword : string) (st : OverallState) (t : N) :
  let r := shortener_reply (queryString (playground st)) keyword in
  reply_after r = Some t ->
  ((10000 < t)%N -> shortenURLHandler keyword st = generic_failure st) /\
  ((t < 10000)%N ->
     (request_fails (fetched r) -> shortenURLHandler keyword st = generic_failure st) /\
     (forall payload url delivered,
        fetched r = HttpResponse true (Some payload) ->
        get payload "status" = Normal (VStr "success") ->
        get payload "url" = Normal url ->
        get url "keyword" = Normal (VStr delivered) ->
        shortenURLHandler keyword st =
          (Normal tt,
           reducer st (updateShortURL (urlShortenerBase ++ delivered)),
           [Put (updateShortURL (urlShortenerBase ++ delivered))])) /\
     (forall payload status shorturl message url delivered,
        fetched r = HttpResponse true (Some payload) ->
        get payload "status" = Normal status -> status <> VStr "success" ->
        get payload "shorturl" = Normal shorturl -> truthy shorturl = true ->
        get payload "message" = Normal message ->
        get payload "url" = Normal url ->
        get url "keyword" = Normal (VStr delivered) ->
        shortenURLHandler keyword st =
          (Normal tt,
           reducer st (updateShortURL (urlShortenerBase ++ delivered)),
           [ShowSuccessMessage message;
            Put (updateShortURL (urlShortenerBase ++ delivered))])) /\
     (forall payload status shorturl message,
        fetched r = HttpResponse true (Some payload) ->
        truthy payload = true ->
        get payload "status" = Normal status -> status <> VStr "success" ->
        get payload "shorturl" = Normal shorturl -> truthy shorturl = false ->
        get payload "message" = Normal message ->
        shortenURLHandler keyword st =
          (Normal tt,
           reducer st (updateShortURL "ERROR"),
           [Put (updateShortURL "ERROR"); ShowWarningMessage message]))).
Proof.
  intros r E. split; intros H.
  - rewrite race_decides. cbv zeta. rewrite delay_first.
    + apply conclude_generic; reflexivity.
    + unfold delay_ends_first. fold r. rewrite E. exact H.
  - split; [|split; [|split]].
    + intros F. rewrite race_decides. cbv zeta. rewrite (reply_in_time _ _ t E H).
      unfold shortenURLRequest. fold r. cbn [settled].
      destruct F; cbn [negb]; apply conclude_generic; reflexivity.
    + intros payload url delivered F Hs Hu Hk.
      rewrite (payload_first keyword st t payload E H F).
      apply (conclude_success payload url delivered st Hs Hu Hk).
    + intros payload status shorturl message url delivered F Hs Hne Hsh Htr Hm Hu Hk.
      rewrite (payload_first keyword st t payload E H F).
      apply (conclude_degraded payload status shorturl message url delivered st
               Hs Hne Hsh Htr Hm Hu Hk).
    + intros payload status shorturl message F Htr Hs Hne Hsh Hfalsy Hm.
      rewrite (payload_first keyword st t payload E H F).
      apply (conclude_refusal payload status shorturl message st Htr Hs Hne Hsh Hfalsy Hm).
Qed.

(** C5, amended: a payload whose status is not ["success"], whose [shorturl]
    is truthy and which delivers a keyword sets the short URL to the base
    followed by the keyword, after a success notification with the payload's
    message. *)
Theorem C5_degraded_success
  (keyword : string) (st : OverallState) (t : N)
  (payload status shorturl message url : jsval) (delivered : string) :
  shortener_reply (queryString (playground st)) keyword
    = mkReply (Some t) (HttpResponse true (Some payload)) ->
  (t < 10000)%N ->
  get payload "status" = Normal status -> status <> VStr "success" ->
  get payload "shorturl" = Normal shorturl -> truthy shorturl = true ->
  get payload "message" = Normal message ->
  get payload "url" = Normal url ->
  get url "keyword" = Normal (VStr delivered) ->
  shortenURLHandler keyword st =
    (Normal tt,
     reducer st (updateShortURL (urlShortenerBase ++ delivered)),
     [ShowSuccessMessage message;
      Put (updateShortURL (urlShortenerBase ++ delivered))]).
Proof.
  intros E Ht Hs Hne Hsh Htr Hm Hu Hk.
  rewrite (payload_in_time _ _ t payload E Ht).
  unfold conclude.
  assert (truthy payload = true) as ->.
  { apply (get_defined _ _ _ Hsh). intros ->. discriminate. }
  unfold bind, read, ret, put, call_showSuccessMessage.
  rewrite Hs, Hsh, Hm, Hu, Hk, (not_success _ Hne), Htr. reflexivity.
Qed.

(** C6: a payload that arrives over an OK response with no [shorturl] and a
    status that is not ["success"] sets the short URL to ["ERROR"] and
    shows the payload's message as a warning. *)
Theorem C6_application_failure
  (keyword : string) (st : OverallState) (t : N)
  (payload status message : jsval) :
  shortener_reply (queryString (playground st)) keyword
    = mkReply (Some t) (HttpResponse true (Some payload)) ->
  (t < 10000)%N ->
  truthy payload = true ->
  get payload "status" = Normal status -> status <> VStr "success" ->
  get payload "shorturl" = Normal VUndefined ->
  get payload "message" = Normal message ->
  shortenURLHandler keyword st =
    (Normal tt,
     reducer st (updateShortURL "ERROR"),
     [Put (updateShortURL "ERROR"); ShowWarningMessage message]).
Proof.
  intros E Ht Htr Hs Hne Hsh Hm.
  rewrite (payload_in_time _ _ t payload E Ht).
  unfold conclude. rewrite Htr.
  unfold bind, read, ret, put, call_showWarningMessage.
  rewrite Hs, Hsh, Hm, (not_success _ Hne). reflexivity.
Qed.

(** C8: a payload that arrives over an OK response with status ["success"]
    and a delivered keyword sets the short URL to the base followed by the
    keyword; that dispatch is the only effect, so no notification is
    shown. *)
Theorem C8_success
  (keyword : string) (st : OverallState) (t : N)
  (payload url : jsval) (delivered : string) :
  shortener_reply (queryString (playground st)) keyword
    = mkReply (Some t) (HttpResponse true (Some payload)) ->
  (t < 10000)%N ->
  get payload "status" = Normal (VStr "success") ->
  get payload "url" = Normal url ->
  get url "keyword" = Normal (VStr delivered) ->
  shortenURLHandler keyword st =
    (Normal tt,
     reducer st (updateShortURL (urlShortenerBase ++ delivered)),
     [Put (updateShortURL (urlShortenerBase ++ delivered))]).
Proof.
  intros E Ht Hs Hu Hk.
  rewrite (payload_in_time _ _ t payload E Ht).
  unfold conclude.
  rewrite (get_defined _ _ _ Hs) by discriminate.
  unfold bind, read, ret, put.
  rewrite Hs, Hu, Hk.
  destruct payload; try discriminate. simpl in *.
  destruct (own_property props "shorturl"); reflexivity.
Qed.

(** ** The watcher of the query string *)

(** What [updateQueryString] publishes is the encoding of the snapshot, and
    it replaces whatever the store held. *)
Lemma updateQueryString_publishes (st : OverallState) (snap : EditorSnapshot) :
  snapshot st = Some snap ->
  updateQueryString st =
    (Normal tt,
     reducer st (changeQueryString (encode snap)),
     [Put (changeQueryString (encode snap))]).
Proof.
  unfold snapshot, updateQueryString, bind, select, firstTabValue, encode.
  destruct (editorTabs (workspaces_playground st)) as [|tab tabs]; [discriminate|].
  intros [= <-]. cbn [text snap_variant snap_externalLibrary execTimeBudgetMs].
  unfold nonempty. rewrite negb_involutive.
  destruct ((value tab =? "") || (value tab =? defaultEditorValue)); reflexivity.
Qed.

(** C7: an empty text and the placeholder text publish the empty string. *)
Theorem C7_empty_or_placeholder_publishes_empty
  (st : OverallState) (snap : EditorSnapshot) :
  snapshot st = Some snap ->
  text snap = "" \/ text snap = defaultEditorValue ->
  updateQueryString st =
    (Normal tt, reducer st (changeQueryString ""), [Put (changeQueryString "")]) /\
  encode snap = "".
Proof.
  intros S H.
  assert (encode snap = "") as E.
  { unfold encode. destruct H as [-> | ->]; reflexivity. }
  rewrite (updateQueryString_publishes st snap S), E. repeat split.
Qed.

Lemma sorted_fields (p v x e : string) :
  sort_by_key [("prgrm", p); ("variant", v); ("ext", x); ("exec", e)]
  = [("exec", e); ("ext", x); ("prgrm", p); ("variant", v)].
Proof. reflexivity. Qed.

Lemma encode_shareable (snap : EditorSnapshot) :
  text snap <> "" -> text snap <> defaultEditorValue ->
  encode snap =
    qs_stringify [("prgrm", compressToEncodedURIComponent (text snap));
                  ("variant", snap_variant snap);
                  ("ext", snap_externalLibrary snap);
                  ("exec", Number_toString (execTimeBudgetMs snap))].
Proof.
  intros H1 H2. unfold encode.
  apply String.eqb_neq in H1, H2. rewrite H1, H2. reflexivity.
Qed.

(** The program field of a decoded link, behind [#] or bare. *)
Lemma decoded_fields (snap : EditorSnapshot) :
  text snap <> "" -> text snap <> defaultEditorValue ->
  forall qs,
    qs = parseQuery_spec (String "#" (encode snap)) \/ qs = parseQuery_spec (encode snap) ->
  query_get qs "lz" = None /\
  query_get qs "prgrm" = Some (compressToEncodedURIComponent (text snap)) /\
  query_get qs "chap" = None /\
  query_get qs "variant" = Some (snap_variant snap) /\
  query_get qs "exec" = Some (Number_toString (execTimeBudgetMs snap)).
Proof.
  intros H1 H2 qs Hqs.
  assert (qs = [("exec", Number_toString (execTimeBudgetMs snap));
                ("ext", snap_externalLibrary snap);
                ("prgrm", compressToEncodedURIComponent (text snap));
                ("variant", snap_variant snap)]) as ->.
  { rewrite (encode_shareable snap H1 H2) in Hqs.
    destruct (parseQuery_stringify
                [("prgrm", compressToEncodedURIComponent (text snap));
                 ("variant", snap_variant snap);
                 ("ext", snap_externalLibrary snap);
                 ("exec", Number_toString (execTimeBudgetMs snap))]) as [P1 P2].
    rewrite sorted_fields in P1, P2. destruct Hqs; congruence. }
  repeat split.
Qed.

(** The compression is lossless and never yields the empty string for a
    text that is not empty; the page parses a query as the spec has it. *)
Hypothesis lz_lossless :
  forall s, decompressFromEncodedURIComponent (compressToEncodedURIComponent s) = Some s.
Hypothesis lz_nonempty :
  forall s, s <> "" -> compressToEncodedURIComponent s <> "".
Hypothesis parseQuery_decodes :
  forall query, parseQuery query = parseQuery_spec query.

Lemma nonempty_true (s : string) : s <> "" -> nonempty s = true.
Proof. intros H. unfold nonempty. apply String.eqb_neq in H. rewrite H. reflexivity. Qed.

(** C1: for a text that is neither empty nor the placeholder, the query
    string the watcher publishes decodes to that text: its program field
    decompresses to it, and [handleHash] on the link hands it to the
    editor. *)
Theorem C1_link_round_trip (st : OverallState) (snap : EditorSnapshot) :
  snapshot st = Some snap ->
  text snap <> "" -> text snap <> defaultEditorValue ->
  let q := encode snap in
  effects (updateQueryString st) = [Put (changeQueryString q)] /\
  (exists lz, query_get (parseQuery q) "prgrm" = Some lz /\
              decompressFromEncodedURIComponent lz = Some (text snap)) /\
  (exists rest, handleHash (String "#" q) = handleEditorValueChange (text snap) :: rest).
Proof.
  intros S H1 H2 q. split; [|split].
  - rewrite (updateQueryString_publishes st snap S). reflexivity.
  - exists (compressToEncodedURIComponent (text snap)). split.
    + rewrite parseQuery_decodes.
      apply (decoded_fields snap H1 H2 (parseQuery_spec q)). right. reflexivity.
    + apply lz_lossless.
  - destruct (decoded_fields snap H1 H2 (parseQuery_spec (String "#" q)))
      as (Hlz & Hp & _); [left; reflexivity|].
    unfold handleHash. rewrite parseQuery_decodes, Hlz, Hp.
    rewrite (nonempty_true _ (lz_nonempty _ H1)), lz_lossless, (nonempty_true _ H1).
    eexists. reflexivity.
Qed.

(** Two texts worth sharing have the same encoding only if they are the
    same text, and a text worth sharing never encodes to the empty string. *)
Lemma encode_text_injective (snap1 snap2 : EditorSnapshot) :
  text snap1 <> "" -> text snap1 <> defaultEditorValue ->
  text snap2 <> "" -> text snap2 <> defaultEditorValue ->
  encode snap1 = encode snap2 -> text snap1 = text snap2.
Proof.
  intros A1 A2 B1 B2 E.
  destruct (decoded_fields snap1 A1 A2 (parseQuery_spec (encode snap1)))
    as (_ & P1 & _); [right; reflexivity|].
  destruct (decoded_fields snap2 B1 B2 (parseQuery_spec (encode snap2)))
    as (_ & P2 & _); [right; reflexivity|].
  rewrite E, P2 in P1. injection P1 as P1.
  pose proof (lz_lossless (text snap1)) as L1.
  rewrite <- P1, lz_lossless in L1. congruence.
Qed.

Lemma encode_shareable_nonempty (snap : EditorSnapshot) :
  text snap <> "" -> text snap <> defaultEditorValue -> encode snap <> "".
Proof.
  intros H1 H2 E.
  destruct (decoded_fields snap H1 H2 (parseQuery_spec (encode snap)))
    as (_ & P & _); [right; reflexivity|].
  rewrite E in P. discriminate P.
Qed.

Lemma encode_unshareable (snap : EditorSnapshot) :
  text snap = "" \/ text snap = defaultEditorValue -> encode snap = "".
Proof. unfold encode. intros [-> | ->]; reflexivity. Qed.

Lemma shareable_dec (s : string) :
  (s = "" \/ s = defaultEditorValue) \/ (s <> "" /\ s <> defaultEditorValue).
Proof.
  destruct (string_dec s "") as [|N1]; [left; left; assumption|].
  destruct (string_dec s defaultEditorValue) as [|N2]; [left; right; assumption|].
  right. split; assumption.
Qed.

(** The query string is a register: the value dispatched is the value held. *)
Hypothesis reducer_register :
  forall st q, queryString (playground (reducer st (changeQueryString q))) = Some q.

(** C9: every triggering publishes the encoding of the snapshot it finds,
    over whatever the store held.  So after a first triggering and a second
    one on a different text, the store holding the first encoding in
    between, the query string is the encoding of the second snapshot; it is
    then not the encoding of the first as soon as one of the two texts is
    worth sharing. *)
Theorem C9_latest_snapshot_wins
  (st1 st2 : OverallState) (snap1 snap2 : EditorSnapshot) :
  snapshot st1 = Some snap1 ->
  snapshot st2 = Some snap2 ->
  let after1 := store_after (PlaygroundSaga GENERATE_LZ_STRING st1) in
  let after2 := store_after (PlaygroundSaga GENERATE_LZ_STRING st2) in
  queryString (playground st2) = queryString (playground after1) ->
  text snap1 <> text snap2 ->
  effects (PlaygroundSaga GENERATE_LZ_STRING st2) = [Put (changeQueryString (encode snap2))] /\
  queryString (playground st2) = Some (encode snap1) /\
  queryString (playground after2) = Some (encode snap2) /\
  ((text snap1 <> "" /\ text snap1 <> defaultEditorValue) \/
   (text snap2 <> "" /\ text snap2 <> defaultEditorValue) ->
   queryString (playground after2) <> Some (encode snap1)).
Proof.
  intros S1 S2 after1 after2 Hheld Hdiff.
  assert (forall st snap, snapshot st = Some snap ->
            queryString (playground (store_after (PlaygroundSaga GENERATE_LZ_STRING st)))
            = Some (encode snap)) as Every.
  { intros st snap H. simpl. rewrite (updateQueryString_publishes st snap H).
    apply reducer_register. }
  split; [simpl; rewrite (updateQueryString_publishes st2 snap2 S2); reflexivity|].
  split; [rewrite Hheld; apply Every, S1|].
  split; [apply Every, S2|].
  intros Hshare. subst after2. rewrite (Every st2 snap2 S2).
  intros E. injection E as E.
  destruct (shareable_dec (text snap1)) as [U1|[A1 A2]];
    destruct (shareable_dec (text snap2)) as [U2|[B1 B2]].
  - destruct Hshare as [[? ?]|[? ?]]; destruct U1, U2; contradiction.
  - apply (encode_shareable_nonempty snap2 B1 B2).
    rewrite E. apply encode_unshareable, U1.
  - apply (encode_shareable_nonempty snap1 A1 A2).
    rewrite <- E. apply encode_unshareable, U2.
  - apply Hdiff. symmetry. apply (encode_text_injective snap2 snap1 B1 B2 A1 A2 E).
Qed.

(** ** The execution time of a decoded link *)

(** C10: whatever the hash, [handleHash] ends with one call of
    [handleChangeExecTime], with a time of at least 1000: a missing (or
    empty) [exec] is read as ["1000"], a parameter that is no number gives
    1000, and a number below 1000 is raised to 1000. *)
Theorem C10_execTime_at_least_1000 (hash : string) :
  let exec := string_or (query_get (parseQuery hash) "exec") "1000" in
  exists calls execTime,
    handleHash hash = (calls ++ [handleChangeExecTime execTime])%list /\
    (forall n, ~ In (handleChangeExecTime n) calls) /\
    (1000 <= execTime)%Z /\
    (query_get (parseQuery hash) "exec" = None -> exec = "1000") /\
    (stringParamToInt (Some exec) = None -> execTime = 1000%Z) /\
    (forall n, stringParamToInt (Some exec) = Some n ->
       execTime = Z.max n 1000 /\ ((n < 1000)%Z -> execTime = 1000%Z)).
Proof.
  intros exec. subst exec. unfold handleHash. cbv zeta.
  set (qs := parseQuery hash).
  set (exec := string_or (query_get qs "exec") "1000").
  set (execTime := Z.max (number_or (stringParamToInt (Some exec)) 1000) 1000).
  assert (1000 <= execTime)%Z as Hge by (subst execTime; lia).
  assert ((execTime =? 0)%Z = false) as Hnz by (apply Z.eqb_neq; lia).
  eexists _, execTime. split; [|split; [|split; [exact Hge|split; [|split]]]].
  - rewrite Hnz. rewrite app_assoc. reflexivity.
  - intros n H. apply in_app_or in H as [H|H].
    + destruct (match query_get qs "lz" with Some lz => Some lz | None => query_get qs "prgrm" end)
        as [lz|]; [|exact H].
      destruct (if nonempty lz then decompressFromEncodedURIComponent lz else Some lz)
        as [p|]; [|exact H].
      destruct (nonempty p); [|exact H]. destruct H as [H|[]]. discriminate H.
    + destruct (stringParamToInt (query_get qs "chap")) as [c|]; [|exact H].
      destruct (c =? 0)%Z; [exact H|]. destruct H as [H|[]]. discriminate H.
  - intros H. subst exec. rewrite H. reflexivity.
  - intros H. subst execTime. rewrite H. reflexivity.
  - intros n H. subst execTime. rewrite H. unfold number_or.
    destruct (n =? 0)%Z eqn:E; [apply Z.eqb_eq in E; subst n|]; split; lia.
Qed.

(** ** More on the sagas *)

(** Without a first editor tab the watcher throws on [editorTabs[0].value]:
    nothing is dispatched and the store is as it was. *)
Theorem updateQueryString_without_tab (st : OverallState) :
  editorTabs (workspaces_playground st) = [] ->
  updateQueryString st = (Throw (TypeError "value"), st, []).
Proof.
  intros H. unfold updateQueryString, bind, select, firstTabValue.
  rewrite H. reflexivity.
Qed.

(** A body that parses to a falsy value ([null], [false], [0], the empty
    string) is handled like a request that failed, whenever it arrives. *)
Theorem falsy_body_is_generic_failure
  (keyword : string) (st : OverallState) (payload : jsval) :
  fetched (shortener_reply (queryString (playground st)) keyword)
    = HttpResponse true (Some payload) ->
  truthy payload = false ->
  shortenURLHandler keyword st = generic_failure st.
Proof.
  intros E F. rewrite race_decides. cbv zeta.
  destruct (call_finishes_first _ 10000); [|apply conclude_generic; reflexivity].
  unfold shortenURLRequest. rewrite E. cbn [settled negb].
  apply conclude_generic. rewrite F. reflexivity.
Qed.

(** Induction on a JavaScript value, with the items of an array. *)
Lemma jsval_by_items (P : jsval -> Prop) :
  P VUndefined -> P VNull -> (forall b, P (VBool b)) -> (forall r, P (VNum r)) ->
  (forall s, P (VStr s)) ->
  (forall items, Forall P items -> P (VArr items)) ->
  (forall props, P (VObj props)) ->
  forall v, P v.
Proof.
  intros Hu Hn Hb Hr Hs Ha Ho. fix IH 1. intros v.
  destruct v as [| |b|r|s|items|props];
    [exact Hu|exact Hn|apply Hb|apply Hr|apply Hs| |apply Ho].
  apply Ha.
  exact ((fix go (l : list jsval) : Forall P l :=
            match l with
            | [] => Forall_nil P
            | x :: l' => Forall_cons x (IH x) (go l')
            end) items).
Qed.

(** The only way a conversion to a string fails. *)
Lemma ToString_throws (v : jsval) :
  forall e, ToString v = Throw e -> e = NotPrimitive.
Proof.
  induction v as [| |b|r|s|items Hitems|props] using jsval_by_items;
    simpl; try discriminate.
  - destruct b; discriminate.
  - induction Hitems as [|x l Hx Hl IH]; [discriminate|].
    assert (forall e', match x with VUndefined | VNull => Normal "" | _ => ToString x end
                       = Throw e' -> e' = NotPrimitive) as Hx'.
    { intros e' H. destruct x; try discriminate H; apply (Hx _ H). }
    destruct l as [|y l'].
    + apply Hx'.
    + intros e. destruct (match x with VUndefined | VNull => Normal "" | _ => ToString x end) eqn:Ex.
      * intros H. apply IH.
        match type of H with match ?c with _ => _ end = _ => destruct c eqn:Ec end;
          [discriminate H|]. injection H as <-. reflexivity.
      * intros [= <-]. apply Hx'. reflexivity.
  - intros e. destruct (has_own_property props "toString"); [intros [= <-]; reflexivity|discriminate].
Qed.

(** When the status is ["success"], what [url.keyword] holds is converted
    to a string and dispatched behind the base, with no notification: a
    [url] without keyword gives a short URL that ends in [undefined].  Where
    the conversion throws, as for a keyword object with an own [toString],
    the handler throws with nothing dispatched. *)
Theorem delivered_keyword_is_rendered
  (keyword : string) (st : OverallState) (t : N) (payload url delivered : jsval) :
  shortener_reply (queryString (playground st)) keyword
    = mkReply (Some t) (HttpResponse true (Some payload)) ->
  (t < 10000)%N ->
  get payload "status" = Normal (VStr "success") ->
  get payload "url" = Normal url ->
  get url "keyword" = Normal delivered ->
  shortenURLHandler keyword st =
    match ToString delivered with
    | Normal rendered =>
        (Normal tt,
         reducer st (updateShortURL (urlShortenerBase ++ rendered)),
         [Put (updateShortURL (urlShortenerBase ++ rendered))])
    | Throw e => (Throw e, st, [])
    end /\
  (delivered = VUndefined ->
   effects (shortenURLHandler keyword st)
   = [Put (updateShortURL (urlShortenerBase ++ "undefined"))]) /\
  (forall props, delivered = VObj props -> has_own_property props "toString" = true ->
   shortenURLHandler keyword st = (Throw NotPrimitive, st, [])).
Proof.
  intros E Ht Hs Hu Hk.
  assert (shortenURLHandler keyword st =
            match ToString delivered with
            | Normal rendered =>
                (Normal tt,
                 reducer st (updateShortURL (urlShortenerBase ++ rendered)),
                 [Put (updateShortURL (urlShortenerBase ++ rendered))])
            | Throw e => (Throw e, st, [])
            end) as R.
  { rewrite (payload_in_time _ _ t payload E Ht).
    unfold conclude.
    rewrite (get_defined _ _ _ Hs) by discriminate.
    unfold bind, read, render, ret, put.
    rewrite Hs, Hu, Hk.
    destruct payload; try discriminate. simpl in *.
    destruct (own_property props "shorturl"); destruct (ToString delivered); reflexivity. }
  split; [exact R|]. split.
  - intros ->. rewrite R. reflexivity.
  - intros props -> Hown. rewrite R. simpl. rewrite Hown. reflexivity.
Qed.

(** What [conclude] can do: one dispatch of [updateShortURL] with at most
    one notification around it, or a [TypeError], on reading [keyword] or on
    converting it, before any dispatch. *)
Lemma conclude_shape (resp timeout : jsval) (st : OverallState) :
  (exists before after u,
     conclude resp timeout st =
       (Normal tt, reducer st (updateShortURL u),
        (before ++ Put (updateShortURL u) :: after)%list) /\
     (forall a, ~ In (Put a) (before ++ after)%list) /\
     (List.length (before ++ after)%list <= 1)%nat) \/
  (exists e notes,
     conclude resp timeout st = (Throw e, st, notes) /\
     (e = TypeError "keyword" \/ e = NotPrimitive) /\
     (forall a, ~ In (Put a) notes) /\ (List.length notes <= 1)%nat).
Proof.
  unfold conclude.
  destruct (negb (truthy resp) || truthy timeout) eqn:G.
  - left. exists [], [ShowWarningMessage
                       (VStr "Something went wrong trying to create the link.")], "ERROR".
    split; [reflexivity|]. split; [|simpl; lia].
    intros a [H|[]]. discriminate H.
  - apply orb_false_iff in G as [G _]. apply negb_false_iff in G.
    assert (forall name, exists x, get resp name = Normal x) as Hget.
    { intros name. destruct resp; simpl in *; try discriminate; eexists; reflexivity. }
    destruct (Hget "status") as [status Hs].
    destruct (Hget "shorturl") as [shorturl Hsh].
    destruct (Hget "message") as [message Hm].
    destruct (Hget "url") as [url Hu].
    assert (forall notes : list effect,
              (forall a, ~ In (Put a) notes) -> (List.length notes <= 1)%nat ->
              forall k : OverallState -> completion unit * OverallState * list effect,
              k = (fun st' =>
                     match get url "keyword" with
                     | Normal delivered =>
                         match ToString delivered with
                         | Normal rendered =>
                             (Normal tt,
                              reducer st' (updateShortURL (urlShortenerBase ++ rendered)),
                              [Put (updateShortURL (urlShortenerBase ++ rendered))])
                         | Throw e => (Throw e, st', [])
                         end
                     | Throw e => (Throw e, st', [])
                     end) ->
              (exists before after u,
                 (let '(c, st2, done2) := k st in (c, st2, (notes ++ done2)%list)) =
                   (Normal tt, reducer st (updateShortURL u),
                    (before ++ Put (updateShortURL u) :: after)%list) /\
                 (forall a, ~ In (Put a) (before ++ after)%list) /\
                 (List.length (before ++ after)%list <= 1)%nat) \/
              (exists e notes',
                 (let '(c, st2, done2) := k st in (c, st2, (notes ++ done2)%list)) =
                   (Throw e, st, notes') /\
                 (e = TypeError "keyword" \/ e = NotPrimitive) /\
                 (forall a, ~ In (Put a) notes') /\ (List.length notes' <= 1)%nat)) as Hend.
    { intros notes Hno Hlen k ->.
      destruct url; cbn [get].
      1,2: right; exists (TypeError "keyword"), notes; rewrite app_nil_r;
        split; [reflexivity|]; split; [left; reflexivity|]; split; assumption.
      all: match goal with
           | |- context [ToString ?d] =>
               destruct (ToString d) as [rendered|e] eqn:Er
           end;
        [left; exists notes, [], (urlShortenerBase ++ rendered);
         split; [reflexivity|]; rewrite app_nil_r; split; assumption
        |right; exists e, notes; rewrite app_nil_r;
         split; [reflexivity|]; split;
         [right; apply (ToString_throws _ _ Er)|split; assumption]]. }
    unfold bind, read, render, ret, put, call_showWarningMessage, call_showSuccessMessage.
    rewrite Hs, Hsh, Hm, Hu.
    destruct (strict_eq_string status "success"); cbn [negb andb].
    + specialize (Hend [] (fun a H => H) (Nat.le_0_l 1) _ eq_refl).
      cbn [app] in Hend.
      destruct (get url "keyword") as [delivered|e]; [destruct (ToString delivered)|];
        exact Hend.
    + destruct (truthy shorturl); cbn [negb].
      * assert (forall a, ~ In (Put a) [ShowSuccessMessage message]) as Hno
          by (intros a [H|[]]; discriminate H).
        specialize (Hend [ShowSuccessMessage message] Hno (le_n 1) _ eq_refl).
        destruct (get url "keyword") as [delivered|e]; [destruct (ToString delivered)|];
          exact Hend.
      * left. exists [], [ShowWarningMessage message], "ERROR".
        split; [reflexivity|]. split; [|simpl; lia].
        intros a [H|[]]. discriminate H.
Qed.

(** Whatever the network does, the handler of [SHORTEN_URL] either returns
    after exactly one dispatch, which is an [updateShortURL], and at most one
    notification, or throws a [TypeError], on reading [keyword] of a missing
    [url] or on converting the keyword, with the store untouched and nothing
    dispatched. *)
Theorem handler_dispatches_at_most_once (keyword : string) (st : OverallState) :
  (exists before after u,
     shortenURLHandler keyword st =
       (Normal tt, reducer st (updateShortURL u),
        (before ++ Put (updateShortURL u) :: after)%list) /\
     (forall a, ~ In (Put a) (before ++ after)%list) /\
     (List.length (before ++ after)%list <= 1)%nat) \/
  (exists e notes,
     shortenURLHandler keyword st = (Throw e, st, notes) /\
     (e = TypeError "keyword" \/ e = NotPrimitive) /\
     (forall a, ~ In (Put a) notes) /\ (List.length notes <= 1)%nat).
Proof.
  rewrite race_decides. cbv zeta.
  destruct (call_finishes_first _ 10000); [destruct (settled _)|]; apply conclude_shape.
Qed.

(** ** More on the published query string *)

Lemma decoded_link (snap : EditorSnapshot) :
  text snap <> "" -> text snap <> defaultEditorValue ->
  parseQuery_spec (encode snap)
  = [("exec", Number_toString (execTimeBudgetMs snap));
     ("ext", snap_externalLibrary snap);
     ("prgrm", compressToEncodedURIComponent (text snap));
     ("variant", snap_variant snap)].
Proof.
  intros H1 H2. rewrite (encode_shareable snap H1 H2).
  rewrite (proj2 (parseQuery_stringify _)). apply sorted_fields.
Qed.

(** The query string of a text worth sharing lists [exec], [ext], [prgrm]
    and [variant] in this order, whatever the order in the source, each
    value percent-encoded; no [#] and no [?] occurs in it, so it can stand
    behind the [#] of a link. *)
Theorem published_query_shape (snap : EditorSnapshot) :
  text snap <> "" -> text snap <> defaultEditorValue ->
  encode snap =
    "exec=" ++ Uri.strictUriEncode (Number_toString (execTimeBudgetMs snap))
    ++ "&ext=" ++ Uri.strictUriEncode (snap_externalLibrary snap)
    ++ "&prgrm=" ++ Uri.strictUriEncode (compressToEncodedURIComponent (text snap))
    ++ "&variant=" ++ Uri.strictUriEncode (snap_variant snap) /\
  contains "#" (encode snap) = false /\
  contains "?" (encode snap) = false.
Proof.
  intros H1 H2. rewrite (encode_shareable snap H1 H2), qs_stringify_items, sorted_fields.
  split; [|apply joined_items_clean].
  unfold join, item_of. cbn [map String.concat fst snd Uri.strictUriEncode].
  cbn [Uri.unreserved]. simpl.
  rewrite ?append_assoc. reflexivity.
Qed.

(** The empty query string marks exactly the texts not worth sharing. *)
Theorem encode_empty_iff (snap : EditorSnapshot) :
  encode snap = "" <-> text snap = "" \/ text snap = defaultEditorValue.
Proof.
  split; [|apply encode_unshareable].
  intros E. destruct (shareable_dec (text snap)) as [U|[A1 A2]]; [exact U|].
  destruct (encode_shareable_nonempty snap A1 A2 E).
Qed.

(** Two snapshots worth sharing that publish the same query string have the
    same text, variant and library, and execution times that JavaScript
    renders alike: the same number, up to the sign of zero. *)
Theorem encode_injective (snap1 snap2 : EditorSnapshot) :
  text snap1 <> "" -> text snap1 <> defaultEditorValue ->
  text snap2 <> "" -> text snap2 <> defaultEditorValue ->
  encode snap1 = encode snap2 ->
  text snap1 = text snap2 /\
  snap_variant snap1 = snap_variant snap2 /\
  snap_externalLibrary snap1 = snap_externalLibrary snap2 /\
  Number_toString (execTimeBudgetMs snap1) = Number_toString (execTimeBudgetMs snap2).
Proof.
  intros A1 A2 B1 B2 E.
  pose proof (decoded_link snap1 A1 A2) as P1.
  rewrite E, (decoded_link snap2 B1 B2) in P1.
  injection P1 as He Hx Hp Hv.
  assert (text snap2 = text snap1) as Ht.
  { pose proof (lz_lossless (text snap2)) as L.
    rewrite Hp, lz_lossless in L. congruence. }
  split; [symmetry; exact Ht|]. split; [symmetry; exact Hv|].
  split; symmetry; [exact Hx|exact He].
Qed.

(** ** More on [handleHash] *)

(** [handleHash] calls the editor at most once and never with the empty
    text, then selects a chapter at most once and never chapter 0, then sets
    the execution time, in this order. *)
Theorem handleHash_calls_in_order (hash : string) :
  exists e c x,
    handleHash hash = (e ++ c ++ [handleChangeExecTime x])%list /\
    (e = [] \/ exists p, p <> "" /\ e = [handleEditorValueChange p]) /\
    (c = [] \/ exists n v, n <> 0%Z /\ c = [handleChapterSelect n v]).
Proof.
  unfold handleHash. cbv zeta.
  set (qs := parseQuery hash).
  set (x := Z.max _ 1000).
  assert ((x =? 0)%Z = false) as -> by (apply Z.eqb_neq; subst x; lia).
  eexists _, _, x. split; [reflexivity|]. split.
  - destruct (match query_get qs "lz" with Some lz => Some lz | None => query_get qs "prgrm" end)
      as [lz|]; [|left; reflexivity].
    destruct (if nonempty lz then decompressFromEncodedURIComponent lz else Some lz)
      as [p|]; [|left; reflexivity].
    destruct (nonempty p) eqn:N; [|left; reflexivity].
    right. exists p. split; [|reflexivity].
    intros ->. discriminate N.
  - destruct (stringParamToInt (query_get qs "chap")) as [n|]; [|left; reflexivity].
    destruct (n =? 0)%Z eqn:N; [left; reflexivity|].
    right. eexists n, _. split; [|reflexivity].
    apply Z.eqb_neq, N.
Qed.

(** The only language on offer has the default variant. *)
Lemma only_default_variant (c : option Z) (v : option string) :
  match find (fun language : Language =>
                match c, v with
                | Some c', Some v' =>
                    (language_chapter language =? c')%Z &&
                    (language_variant language =? v')
                | _, _ => false
                end) sourceLanguages with
  | Some language => language_variant language
  | None => Variant_DEFAULT
  end = Variant_DEFAULT.
Proof.
  unfold sourceLanguages, sublanguages. simpl.
  destruct c; [|reflexivity]. destruct v; [|reflexivity].
  destruct (_ && _); reflexivity.
Qed.

Ltac hash_cases qs :=
  destruct (match query_get qs "lz" with
            | Some lz => Some lz
            | None => query_get qs "prgrm"
            end) as [lz'|];
  [destruct (if nonempty lz' then decompressFromEncodedURIComponent lz' else Some lz')
     as [p'|];
   [destruct (nonempty p') eqn:Np|]|];
  (destruct (stringParamToInt (query_get qs "chap")) as [c'|];
   [destruct (c' =? 0)%Z eqn:Nc|]);
  cbn [app In].

(** A chapter is selected exactly when [chap] reads as a number other than
    0, and the variant handed over is [Variant.DEFAULT] whatever the link
    says: the only language on offer has that variant. *)
Theorem handleHash_selects_default_variant (hash : string) (n : Z) (v : string) :
  In (handleChapterSelect n v) (handleHash hash) <->
  stringParamToInt (query_get (parseQuery hash) "chap") = Some n /\
  n <> 0%Z /\ v = Variant_DEFAULT.
Proof using Type.
  unfold handleHash. cbv zeta. rewrite only_default_variant.
  set (qs := parseQuery hash).
  set (x := Z.max _ 1000).
  assert ((x =? 0)%Z = false) as -> by (apply Z.eqb_neq; subst x; lia).
  hash_cases qs; split;
    try (intros (H & Hn & ->); try discriminate H; injection H as ->;
         try (apply Z.eqb_eq in Nc; contradiction); simpl; auto);
    intros H;
    repeat match goal with
           | H : _ \/ _ |- _ => destruct H as [H|H]
           | H : False |- _ => destruct H
           | H : _ = handleChapterSelect _ _ |- _ => try discriminate H; injection H as -> ->
           end;
    repeat split; apply Z.eqb_neq, Nc.
Qed.

(** A link with an [lz] parameter takes its text from there and never from
    [prgrm]: an empty [lz] loads nothing, whatever [prgrm] holds. *)
Theorem lz_overrides_prgrm (hash lz : string) :
  query_get (parseQuery hash) "lz" = Some lz ->
  forall p, In (handleEditorValueChange p) (handleHash hash) <->
            lz <> "" /\ decompressFromEncodedURIComponent lz = Some p /\ p <> "".
Proof using Type.
  intros Hlz p. unfold handleHash. cbv zeta. rewrite only_default_variant.
  set (qs := parseQuery hash) in *.
  set (x := Z.max _ 1000).
  assert ((x =? 0)%Z = false) as -> by (apply Z.eqb_neq; subst x; lia).
  rewrite Hlz.
  assert (forall l, (forall q, ~ In (handleEditorValueChange q) l) ->
            forall e, In (handleEditorValueChange p) (e ++ l)%list
                      <-> In (handleEditorValueChange p) e) as Hrest.
  { intros l Hl e. rewrite in_app_iff. split.
    - intros [H|H]; [exact H|destruct (Hl p H)].
    - intros H. left. exact H. }
  rewrite Hrest.
  - destruct (nonempty lz) eqn:N.
    + destruct (decompressFromEncodedURIComponent lz) as [p'|].
      * destruct (nonempty p') eqn:N'; simpl; split.
        -- intros [H|[]]. injection H as ->.
           repeat split; intros ->; discriminate.
        -- intros (_ & [= ->] & _). left. reflexivity.
        -- intros [].
        -- intros (_ & [= ->] & H). apply nonempty_true in H. congruence.
      * simpl. split; [intros []|intros (_ & H & _); discriminate H].
    + simpl. rewrite N. simpl. split; [intros []|].
      intros (H & _). apply nonempty_true in H. congruence.
  - intros q H. apply in_app_or in H as [H|H].
    + destruct (stringParamToInt (query_get qs "chap")) as [c'|]; [|destruct H].
      destruct (c' =? 0)%Z; [destruct H|]. destruct H as [H|[]]. discriminate H.
    + destruct H as [H|[]]. discriminate H.
Qed.

(** Opening a published link: with the query parsed as the spec has it and
    a [stringParamToInt] that gives [null] for a missing parameter,
    [handleHash] restores the text, leaves the chapter alone and sets the
    execution time to what [stringParamToInt] reads in the published
    rendering of the time, raised to 1000 if that is less, and to 1000 if it
    reads no number there. *)
Theorem published_link_opens (snap : EditorSnapshot) :
  text snap <> "" -> text snap <> defaultEditorValue ->
  Number_toString (execTimeBudgetMs snap) <> "" ->
  stringParamToInt None = None ->
  handleHash (String "#" (encode snap))
  = [handleEditorValueChange (text snap);
     handleChangeExecTime
       match stringParamToInt (Some (Number_toString (execTimeBudgetMs snap))) with
       | Some n => Z.max n 1000
       | None => 1000%Z
       end].
Proof.
  intros H1 H2 Hr Hnone.
  destruct (decoded_fields snap H1 H2 (parseQuery_spec (String "#" (encode snap))))
    as (Hlz & Hp & Hchap & _ & He); [left; reflexivity|].
  unfold handleHash. rewrite parseQuery_decodes, Hlz, Hp, Hchap, He, Hnone.
  rewrite (nonempty_true _ (lz_nonempty _ H1)), lz_lossless, (nonempty_true _ H1).
  unfold string_or. rewrite (nonempty_true _ Hr).
  set (x := Z.max (number_or _ 1000) 1000).
  assert (x = match stringParamToInt (Some (Number_toString (execTimeBudgetMs snap))) with
              | Some n => Z.max n 1000
              | None => 1000%Z
              end) as Hx.
  { subst x. unfold number_or.
    destruct (stringParamToInt (Some (Number_toString (execTimeBudgetMs snap)))) as [n|];
      [|reflexivity].
    destruct (n =? 0)%Z eqn:Z0; [|reflexivity].
    apply Z.eqb_eq in Z0. rewrite Z0. reflexivity. }
  assert ((x =? 0)%Z = false) as -> by (apply Z.eqb_neq; subst x; lia).
  rewrite Hx. reflexivity.
Qed.

(** ** The default workspace *)

(** Whatever the location, the default workspace starts with the empty text
    or with the placeholder, so a store whose playground is a default
    workspace publishes the empty query string; the default state does. *)
Theorem default_workspace_publishes_nothing (workspaceLocation : string) (st : OverallState) :
  workspaces_playground st = createDefaultWorkspace workspaceLocation ->
  updateQueryString st =
    (Normal tt, reducer st (changeQueryString ""), [Put (changeQueryString "")]) /\
  updateQueryString defaultState =
    (Normal tt, reducer defaultState (changeQueryString ""), [Put (changeQueryString "")]).
Proof.
  intros W.
  assert (forall loc st', workspaces_playground st' = createDefaultWorkspace loc ->
            updateQueryString st' =
              (Normal tt, reducer st' (changeQueryString ""), [Put (changeQueryString "")]))
    as Hall.
  { intros loc st' W'.
    set (t := if includes ["playground"; "sourcecast"; "githubAssessments"] loc
              then defaultEditorValue else "").
    rewrite (updateQueryString_publishes st'
               (mkSnapshot t defaultSourceVariant ExternalLibraryName_NONE (mkNumber "1000"))).
    - rewrite encode_unshareable; [reflexivity|].
      subst t. cbn [text].
      destruct (includes ["playground"; "sourcecast"; "githubAssessments"] loc);
        [right|left]; reflexivity.
    - unfold snapshot. rewrite W'. reflexivity. }
  split; [apply (Hall workspaceLocation st W)|].
  apply (Hall "playground"). reflexivity.
Qed.

(** ** The callbacks of the page *)

Lemma no_breakpoint_iff (breakpoints : list (option string)) :
  (List.length (filter is_breakpoint breakpoints) =? 0)%nat
  = negb (existsb is_breakpoint breakpoints).
Proof.
  induction breakpoints as [|b l IH]; [reflexivity|].
  simpl. destruct (is_breakpoint b); [reflexivity|exact IH].
Qed.

Lemma some_breakpoint_iff (breakpoints : list (option string)) :
  (0 <? List.length (filter is_breakpoint breakpoints))%nat
  = existsb is_breakpoint breakpoints.
Proof.
  induction breakpoints as [|b l IH]; [reflexivity|].
  simpl. destruct (is_breakpoint b); [reflexivity|exact IH].
Qed.

Ltac in_cases :=
  repeat match goal with
         | H : In _ (_ ++ _)%list |- _ => apply in_app_or in H; destruct H as [H|H]
         | H : In _ (_ :: _) |- _ => destruct H as [H|H]
         | H : In _ [] |- _ => destruct H
         | H : _ \/ _ |- _ => destruct H as [H|H]
         | H : False |- _ => destruct H
         | H : _ /\ _ |- _ => destruct H
         end;
  try discriminate.

(** A change of tab: nothing happens when the tab stays or when the run tab
    of the mobile layout is hit from the stepper; in every other case the
    calls end with the selection of the new tab.  The substituter is switched
    on exactly on entering the stepper at a chapter up to 2, and off exactly
    on leaving the stepper without breakpoints, right after the REPL was
    cleared, which happens at no other time; it is never switched both on
    and off. *)
Theorem onChangeTabs_switches_consistently (pg : page) (newTabId prevTabId : string) :
  let calls := onChangeTabs pg newTabId prevTabId in
  (newTabId = prevTabId \/ (prevTabId = substVisualizer /\ newTabId = mobileEditorRun) ->
   calls = []) /\
  (newTabId <> prevTabId ->
   ~ (prevTabId = substVisualizer /\ newTabId = mobileEditorRun) ->
   exists before,
     calls = (before ++ [setSelectedTab newTabId])%list /\
     selectedTab (rerender pg calls) = newTabId /\
     (In (handleUsingSubst false) calls ->
      exists first, before = (first ++ [handleReplOutputClear; handleUsingSubst false])%list)) /\
  (In (handleUsingSubst true) calls <->
   newTabId <> prevTabId /\ newTabId = substVisualizer /\
   (playgroundSourceChapter pg <= 2)%Z) /\
  (In (handleUsingSubst false) calls <->
   newTabId <> prevTabId /\ prevTabId = substVisualizer /\
   newTabId <> mobileEditorRun /\ hasBreakpoints pg = false) /\
  (In handleReplOutputClear calls <-> In (handleUsingSubst false) calls) /\
  ~ (In (handleUsingSubst true) calls /\ In (handleUsingSubst false) calls).
Proof using Type.
  unfold onChangeTabs.
  destruct (String.eqb_spec newTabId prevTabId) as [Heq|Hne];
    destruct (String.eqb_spec prevTabId substVisualizer) as [Hp|Hp];
    destruct (String.eqb_spec newTabId mobileEditorRun) as [Hn|Hn];
    destruct (String.eqb_spec newTabId substVisualizer) as [Hs|Hs];
    destruct (playgroundSourceChapter pg <=? 2)%Z eqn:Hc;
    destruct (hasBreakpoints pg) eqn:Hb;
    try (apply Z.leb_le in Hc); try (apply Z.leb_gt in Hc);
    try congruence;
    cbn [negb andb app]; cbv zeta;
    (split; [intros Hst; first [reflexivity | exfalso; in_cases; congruence]|]);
    (split; [intros Hd Hst; first
               [ exfalso; first [congruence | apply Hst; split; assumption]
               | eexists; split; [rewrite ?app_comm_cons; first
                     [ instantiate (1 := []); reflexivity
                     | instantiate (1 := [_]); reflexivity
                     | instantiate (1 := [_; _]); reflexivity
                     | instantiate (1 := [_; _; _]); reflexivity ]
                   | split; [reflexivity
                            | intros H; in_cases; first
                                [ exists []; reflexivity
                                | eexists [_]; reflexivity ]]]]|]);
    (split; [split; intros H; in_cases; try congruence; try lia;
             first [repeat split; assumption | simpl; auto]|]);
    (split; [split; intros H; in_cases; try congruence;
             first [repeat split; assumption | simpl; auto]|]);
    (split; [split; intros H; in_cases; simpl; auto|]);
    intros H; in_cases; congruence.
Qed.

(** A chapter chosen in the control bar: the choice is logged and handed to
    the props last, in this order.  Above chapter 2 the REPL is cleared and
    the substituter ends switched off, even when it was switched on first;
    up to chapter 2 it is never switched off and the REPL is never cleared. *)
Theorem chapterSelectHandler_settles_substituter
  (pg : page) (now chapter : Z) (variant : string) :
  let calls := chapterSelectHandler pg now chapter variant in
  (exists before,
     calls = (before ++ [log (sessionId pg) (chapterSelect now chapter);
                         props_call (handleChapterSelect chapter variant)])%list /\
     ((2 < chapter)%Z ->
      exists first, before = (first ++ [handleReplOutputClear; handleUsingSubst false])%list) /\
     ((chapter <= 2)%Z ->
      ~ In (handleUsingSubst false) calls /\ ~ In handleReplOutputClear calls)) /\
  (In (handleUsingSubst true) calls <->
   ((chapter <= 2)%Z /\ hasBreakpoints pg = true) \/ selectedTab pg = substVisualizer).
Proof.
  unfold chapterSelectHandler. cbv zeta.
  destruct (String.eqb_spec (selectedTab pg) substVisualizer) as [Hs|Hs];
    destruct (hasBreakpoints pg) eqn:Hb;
    destruct (chapter <=? 2)%Z eqn:Hc; destruct (2 <? chapter)%Z eqn:Hd;
    try (apply Z.leb_le in Hc); try (apply Z.leb_gt in Hc);
    try (apply Z.ltb_lt in Hd); try (apply Z.ltb_ge in Hd); try lia;
    cbn [andb orb app];
    (split;
     [eexists; split;
        [rewrite ?app_comm_cons; first
           [ instantiate (1 := []); reflexivity
           | instantiate (1 := [_]); reflexivity
           | instantiate (1 := [_; _]); reflexivity
           | instantiate (1 := [_; _; _]); reflexivity ]|];
      split;
        [intros Hch; try lia; first [exists []; reflexivity | eexists [_]; reflexivity]
        |intros Hch; try lia; split; intros H; in_cases]
     |split; intros H; in_cases; try lia; try congruence; simpl; auto]).
Qed.

(** An update of the breakpoints: the page remembers whether some entry is
    a breakpoint (holes and empty entries are none), the selected tab stays,
    and the array is handed to the props last, as it came.  The substituter
    is switched on only with a breakpoint at a chapter up to 2, and off only
    with no breakpoint outside the stepper. *)
Theorem handleEditorUpdateBreakpoints_tracks
  (pg : page) (breakpoints : list (option string)) :
  let calls := handleEditorUpdateBreakpoints pg breakpoints in
  hasBreakpoints (rerender pg calls) = existsb is_breakpoint breakpoints /\
  selectedTab (rerender pg calls) = selectedTab pg /\
  (exists before, calls = (before ++ [props_handleEditorUpdateBreakpoints breakpoints])%list) /\
  (In (handleUsingSubst true) calls <->
   existsb is_breakpoint breakpoints = true /\ (playgroundSourceChapter pg <= 2)%Z) /\
  (In (handleUsingSubst false) calls <->
   existsb is_breakpoint breakpoints = false /\ selectedTab pg <> substVisualizer).
Proof.
  unfold handleEditorUpdateBreakpoints. cbv zeta.
  rewrite no_breakpoint_iff, some_breakpoint_iff.
  destruct (existsb is_breakpoint breakpoints);
    destruct (String.eqb_spec (selectedTab pg) substVisualizer) as [Hs|Hs];
    destruct (playgroundSourceChapter pg <=? 2)%Z eqn:Hc;
    try (apply Z.leb_le in Hc); try (apply Z.leb_gt in Hc);
    cbn [negb app];
    (split; [reflexivity|]); (split; [reflexivity|]);
    (split; [eexists; rewrite ?app_comm_cons; first
               [ reflexivity
               | instantiate (1 := [_]); reflexivity
               | instantiate (1 := [_; _]); reflexivity
               | instantiate (1 := [_; _; _]); reflexivity ]|]);
    split; split; intros H; in_cases; try lia; try congruence;
    try (split; [reflexivity|assumption]); simpl; auto.
Qed.

(** While some breakpoint is set, no change of tab clears the REPL or
    switches the substituter off. *)
Theorem breakpoints_keep_the_substituter
  (pg : page) (breakpoints : list (option string)) (newTabId prevTabId : string) :
  existsb is_breakpoint breakpoints = true ->
  let pg' := rerender pg (handleEditorUpdateBreakpoints pg breakpoints) in
  ~ In (handleUsingSubst false) (onChangeTabs pg' newTabId prevTabId) /\
  ~ In handleReplOutputClear (onChangeTabs pg' newTabId prevTabId).
Proof.
  intros E pg'.
  assert (hasBreakpoints pg' = true) as Hb.
  { subst pg'. rewrite (proj1 (handleEditorUpdateBreakpoints_tracks pg breakpoints)).
    exact E. }
  unfold onChangeTabs. rewrite Hb.
  destruct (newTabId =? prevTabId); [split; intros []|].
  destruct (negb _); [|split; intros []].
  rewrite andb_false_r.
  destruct (_ && _); cbn [app]; split; intros H; in_cases.
Qed.

(** Crossing the breakpoint of the layout: after the effect has run once the
    selected tab fits the layout and the effect has nothing left to do,
    given that the introduction tab is none of the two mobile tabs. *)
Theorem toggleTabs_settles (isMobileBreakpoint : bool) (pg : page) :
  introduction <> mobileEditor -> introduction <> mobileEditorRun ->
  let pg' := rerender pg (toggleTabs isMobileBreakpoint pg) in
  toggleTabs isMobileBreakpoint pg' = [] /\
  (isMobileBreakpoint = true -> includes desktopOnlyTabIds (selectedTab pg') = false) /\
  (isMobileBreakpoint = false -> includes mobileOnlyTabIds (selectedTab pg') = false).
Proof.
  intros H1 H2. unfold toggleTabs, desktopOnlyTabIds, mobileOnlyTabIds, includes.
  cbn [existsb]. rewrite !orb_false_r.
  apply String.eqb_neq in H1, H2.
  assert ((mobileEditor =? introduction) = false) as H1'
    by (rewrite String.eqb_sym; exact H1).
  assert ((mobileEditorRun =? introduction) = false) as H2'
    by (rewrite String.eqb_sym; exact H2).
  destruct isMobileBreakpoint; cbn [andb negb].
  - destruct (introduction =? selectedTab pg) eqn:E; cbn [rerender selectedTab].
    + rewrite String.eqb_sym, H1'. repeat split; intros; congruence.
    + rewrite E. repeat split; intros; congruence.
  - destruct ((mobileEditor =? selectedTab pg) || (mobileEditorRun =? selectedTab pg)) eqn:E;
      cbn [rerender selectedTab].
    + rewrite H1', H2'. repeat split; intros; congruence.
    + rewrite E. repeat split; intros; congruence.
Qed.

(** The hash of the location: without one, the only call can be the
    selection of the course's language, so the text and the execution time
    stay; with one, the course's language never applies and the execution
    time is set, to at least 1000, whatever the hash holds. *)
Theorem onHash_course_or_link
  (hash : option string) (courseSourceChapter : option Z) (courseSourceVariant : option string) :
  ((hash = None \/ hash = Some "") ->
   forall call, In call (onHash hash courseSourceChapter courseSourceVariant) ->
     exists c v, call = handleChapterSelect c v /\
                 courseSourceChapter = Some c /\ courseSourceVariant = Some v /\
                 c <> 0%Z /\ v <> "") /\
  (forall h, hash = Some h -> h <> "" ->
     onHash hash courseSourceChapter courseSourceVariant = handleHash h /\
     exists calls x,
       onHash hash courseSourceChapter courseSourceVariant
         = (calls ++ [handleChangeExecTime x])%list /\ (1000 <= x)%Z).
Proof.
  split.
  - intros Hh call H.
    assert (In call match courseSourceChapter, courseSourceVariant with
                    | Some c, Some v =>
                        if negb (c =? 0)%Z && nonempty v then [handleChapterSelect c v] else []
                    | _, _ => []
                    end) as H'.
    { destruct Hh as [-> | ->]; exact H. }
    destruct courseSourceChapter as [c|]; [|destruct H'].
    destruct courseSourceVariant as [v|]; [|destruct H'].
    destruct (c =? 0)%Z eqn:Hc; [destruct H'|].
    destruct (nonempty v) eqn:Hv; [|destruct H'].
    destruct H' as [<-|[]]. exists c, v. repeat split.
    + apply Z.eqb_neq, Hc.
    + intros ->. discriminate Hv.
  - intros h -> Hne. unfold onHash. rewrite (nonempty_true _ Hne).
    split; [reflexivity|].
    unfold handleHash. cbv zeta.
    set (x := Z.max _ 1000).
    assert (1000 <= x)%Z as Hx by (subst x; lia).
    assert ((x =? 0)%Z = false) as -> by (apply Z.eqb_neq; lia).
    eexists _, x. rewrite app_assoc. split; [reflexivity|exact Hx].
Qed.

End Playground.

(** ** The theorems at work *)

(** The handler of [SHORTEN_URL] for the keyword [abc], on the example
    store, with the register reducer and a shortener at [https://sho.rt/]. *)
Local Abbreviation shorten net :=
  (shortenURLHandler register_reducer "https://sho.rt/" "secret" "https:"
     "sourceacademy.org" net false "abc" Example.store).

Local Abbreviation in_time r := (Example.answers (Some 120%N) r).

Lemma C2_witness :
  shorten (in_time (HttpResponse false None)) = generic_failure register_reducer Example.store /\
  shorten (in_time NetworkError) = generic_failure register_reducer Example.store /\
  shorten (in_time (HttpResponse true None)) = generic_failure register_reducer Example.store /\
  shorten (Example.answers None (HttpResponse true (Some Example.created)))
    = generic_failure register_reducer Example.store.
Proof.
  split; [|split; [|split]].
  - apply (C2_failure_or_timeout_is_generic_error register_reducer "https://sho.rt/"
             "secret" "https:" "sourceacademy.org" (in_time (HttpResponse false None))
             false "abc" Example.store).
    left. apply fails_status.
  - apply (C2_failure_or_timeout_is_generic_error register_reducer "https://sho.rt/"
             "secret" "https:" "sourceacademy.org" (in_time NetworkError)
             false "abc" Example.store).
    left. apply fails_connection.
  - apply (C2_failure_or_timeout_is_generic_error register_reducer "https://sho.rt/"
             "secret" "https:" "sourceacademy.org" (in_time (HttpResponse true None))
             false "abc" Example.store).
    left. apply fails_body.
  - apply (C2_failure_or_timeout_is_generic_error register_reducer "https://sho.rt/"
             "secret" "https:" "sourceacademy.org"
             (Example.answers None (HttpResponse true (Some Example.created)))
             false "abc" Example.store).
    right. exact I.
Defined.

Lemma C3_witness :
  shorten (in_time (HttpResponse true (Some Example.success_without_url)))
  = (Throw (TypeError "keyword"), Example.store, []).
Proof.
  apply (C3_payload_without_url_throws register_reducer "https://sho.rt/" "secret"
           "https:" "sourceacademy.org" _ false "abc" Example.store 120
           Example.success_without_url);
    reflexivity.
Defined.

Lemma C4_witness :
  shorten (Example.answers (Some 10500%N) (HttpResponse true (Some Example.created)))
    = generic_failure register_reducer Example.store /\
  shorten (in_time (HttpResponse true (Some Example.created)))
    = (Normal tt,
       register_reducer Example.store (updateShortURL "https://sho.rt/abc"),
       [Put (updateShortURL "https://sho.rt/abc")]) /\
  shorten (in_time (HttpResponse true (Some Example.refused)))
    = (Normal tt,
       register_reducer Example.store (updateShortURL "ERROR"),
       [Put (updateShortURL "ERROR"); ShowWarningMessage (VStr "bad keyword")]).
Proof.
  split; [|split].
  - apply (proj1 (C4_first_to_finish_decides register_reducer "https://sho.rt/" "secret"
                    "https:" "sourceacademy.org"
                    (Example.answers (Some 10500%N)
                       (HttpResponse true (Some Example.created)))
                    false "abc" Example.store 10500 eq_refl)).
    reflexivity.
  - apply (proj2 (C4_first_to_finish_decides register_reducer "https://sho.rt/" "secret"
                    "https:" "sourceacademy.org"
                    (in_time (HttpResponse true (Some Example.created)))
                    false "abc" Example.store 120 eq_refl) eq_refl)
      with (payload := Example.created) (url := VObj [("keyword", VStr "abc")]);
      reflexivity.
  - apply (proj2 (C4_first_to_finish_decides register_reducer "https://sho.rt/" "secret"
                    "https:" "sourceacademy.org"
                    (in_time (HttpResponse true (Some Example.refused)))
                    false "abc" Example.store 120 eq_refl) eq_refl)
      with (payload := Example.refused) (status := VStr "fail") (shorturl := VUndefined);
      try reflexivity.
    discriminate.
Defined.

Lemma C5_witness :
  shorten (in_time (HttpResponse true (Some Example.taken)))
  = (Normal tt,
     register_reducer Example.store (updateShortURL "https://sho.rt/abc"),
     [ShowSuccessMessage (VStr "abc already exists");
      Put (updateShortURL "https://sho.rt/abc")]).
Proof.
  apply (C5_degraded_success register_reducer "https://sho.rt/" "secret" "https:"
           "sourceacademy.org" _ false "abc" Example.store 120 Example.taken
           (VStr "fail") (VStr "https://sho.rt/abc") (VStr "abc already exists")
           (VObj [("keyword", VStr "abc")]) "abc");
    try reflexivity.
  discriminate.
Defined.

(** C5 as it is worded fails: a payload may carry a [shorturl] that is the
    empty string; the field is there, the handler finds it falsy and ends in
    the sentinel and a warning. *)
Lemma C5_present_but_empty_shorturl :
  get Example.empty_shorturl "shorturl" = Normal (VStr "") /\
  shorten (in_time (HttpResponse true (Some Example.empty_shorturl)))
  = (Normal tt,
     register_reducer Example.store (updateShortURL "ERROR"),
     [Put (updateShortURL "ERROR"); ShowWarningMessage (VStr "abc already exists")]) /\
  ~ (forall payload status shorturl message url delivered,
       get payload "status" = Normal status -> status <> VStr "success" ->
       get payload "shorturl" = Normal shorturl -> shorturl <> VUndefined ->
       get payload "message" = Normal message ->
       get payload "url" = Normal url ->
       get url "keyword" = Normal (VStr delivered) ->
       shorten (in_time (HttpResponse true (Some payload))) =
         (Normal tt,
          register_reducer Example.store (updateShortURL ("https://sho.rt/" ++ delivered)),
          [ShowSuccessMessage message;
           Put (updateShortURL ("https://sho.rt/" ++ delivered))])).
Proof.
  split; [reflexivity|]. split; [reflexivity|].
  intros H.
  specialize (H Example.empty_shorturl (VStr "fail") (VStr "") (VStr "abc already exists")
                (VObj [("keyword", VStr "abc")]) "abc").
  assert (VStr "fail" <> VStr "success") as N1 by discriminate.
  assert (VStr "" <> VUndefined) as N2 by discriminate.
  specialize (H eq_refl N1 eq_refl N2 eq_refl eq_refl eq_refl).
  vm_compute in H. discriminate H.
Qed.

Lemma C6_witness :
  shorten (in_time (HttpResponse true (Some Example.refused)))
  = (Normal tt,
     register_reducer Example.store (updateShortURL "ERROR"),
     [Put (updateShortURL "ERROR"); ShowWarningMessage (VStr "bad keyword")]).
Proof.
  apply (C6_application_failure register_reducer "https://sho.rt/" "secret" "https:"
           "sourceacademy.org" _ false "abc" Example.store 120 Example.refused
           (VStr "fail") (VStr "bad keyword"));
    try reflexivity.
  discriminate.
Defined.

Lemma C7_witness :
  updateQueryString register_reducer (fun s => s) Example.untouched
  = (Normal tt,
     register_reducer Example.untouched (changeQueryString ""),
     [Put (changeQueryString "")]).
Proof.
  apply (C7_empty_or_placeholder_publishes_empty register_reducer (fun s => s)
           Example.untouched (mkSnapshot defaultEditorValue "default" "NONE" (mkNumber "1000"))).
  - reflexivity.
  - right. reflexivity.
Defined.

Lemma C8_witness :
  shorten (in_time (HttpResponse true (Some Example.created)))
  = (Normal tt,
     register_reducer Example.store (updateShortURL "https://sho.rt/abc"),
     [Put (updateShortURL "https://sho.rt/abc")]).
Proof.
  apply (C8_success register_reducer "https://sho.rt/" "secret" "https:"
           "sourceacademy.org" _ false "abc" Example.store 120 Example.created
           (VObj [("keyword", VStr "abc")]) "abc");
    reflexivity.
Defined.

(** Links: the text is kept as it is (a compression that changes nothing is
    lossless), queries are parsed as the spec has it, [chap] and [exec] are
    read in decimal. *)
Local Abbreviation open_link hash :=
  (handleHash parseQuery_spec Some Example.decimal 1 "default" hash).

Local Abbreviation publish st :=
  (PlaygroundSaga register_reducer "https://sho.rt/" "secret" "https:"
     "sourceacademy.org" (in_time NetworkError) false (fun s => s)
     GENERATE_LZ_STRING st).

Lemma C1_witness :
  effects (updateQueryString register_reducer (fun s => s) Example.store)
    = [Put (changeQueryString
              "exec=1000&ext=NONE&prgrm=display%281%20%2B%202%29%3B&variant=default")] /\
  exists rest,
    open_link "#exec=1000&ext=NONE&prgrm=display%281%20%2B%202%29%3B&variant=default"
    = handleEditorValueChange "display(1 + 2);" :: rest.
Proof.
  destruct (C1_link_round_trip register_reducer parseQuery_spec (fun s => s) Some
              Example.decimal 1 "default"
              (fun s => eq_refl) (fun s H => H) (fun query => eq_refl)
              Example.store (mkSnapshot "display(1 + 2);" "default" "NONE" (mkNumber "1000"))
              eq_refl)
    as (Hput & _ & Hopen).
  - discriminate.
  - discriminate.
  - split; [exact Hput | exact Hopen].
Defined.

Lemma C9_witness :
  queryString (playground (store_after (publish Example.store)))
    = Some "exec=1000&ext=NONE&prgrm=display%281%20%2B%202%29%3B&variant=default" /\
  queryString (playground (store_after (publish Example.edited)))
    = Some "exec=1000&ext=NONE&prgrm=display%283%29%3B&variant=default".
Proof.
  destruct (C9_latest_snapshot_wins register_reducer "https://sho.rt/" "secret" "https:"
              "sourceacademy.org" (in_time NetworkError) false (fun s => s) Some
              (fun s => eq_refl) (fun st q => eq_refl)
              Example.store Example.edited
              (mkSnapshot "display(1 + 2);" "default" "NONE" (mkNumber "1000"))
              (mkSnapshot "display(3);" "default" "NONE" (mkNumber "1000"))
              eq_refl eq_refl eq_refl)
    as (_ & Hfirst & Hsecond & _).
  - discriminate.
  - split; [reflexivity | exact Hsecond].
Defined.

Lemma C10_witness :
  exists calls,
    open_link "#exec=250" = (calls ++ [handleChangeExecTime 1000])%list /\
    open_link "#exec=soon" = (calls ++ [handleChangeExecTime 1000])%list /\
    open_link "#" = (calls ++ [handleChangeExecTime 1000])%list /\
    open_link "#exec=2500" = (calls ++ [handleChangeExecTime 2500])%list.
Proof.
  destruct (C10_execTime_at_least_1000 parseQuery_spec Some Example.decimal 1 "default"
              "#exec=250")
    as (calls & execTime & Hcalls & Hnone & _ & _ & _ & Hclamp).
  destruct (Hclamp 250%Z eq_refl) as [_ Hlow].
  rewrite (Hlow eq_refl) in Hcalls.
  destruct calls as [|call calls]; [|destruct calls; discriminate Hcalls].
  exists []. repeat split.
Defined.

(** ** The further theorems at work *)

Lemma updateQueryString_without_tab_witness :
  updateQueryString register_reducer (fun s => s)
    (mkState (mkPlayground None None) (mkWorkspace [] "default" "NONE" (mkNumber "1000")))
  = (Throw (TypeError "value"),
     mkState (mkPlayground None None) (mkWorkspace [] "default" "NONE" (mkNumber "1000")), []).
Proof.
  apply (updateQueryString_without_tab register_reducer (fun s => s)). reflexivity.
Defined.

Lemma falsy_body_witness :
  shorten (in_time (HttpResponse true (Some VNull)))
    = generic_failure register_reducer Example.store /\
  shorten (in_time (HttpResponse true (Some (VNum "0"))))
    = generic_failure register_reducer Example.store.
Proof.
  split.
  - apply (falsy_body_is_generic_failure register_reducer "https://sho.rt/" "secret"
             "https:" "sourceacademy.org" (in_time (HttpResponse true (Some VNull)))
             false "abc" Example.store VNull); reflexivity.
  - apply (falsy_body_is_generic_failure register_reducer "https://sho.rt/" "secret"
             "https:" "sourceacademy.org" (in_time (HttpResponse true (Some (VNum "0"))))
             false "abc" Example.store (VNum "0")); reflexivity.
Defined.

Lemma delivered_keyword_witness :
  effects (shorten (in_time (HttpResponse true
             (Some (VObj [("status", VStr "success"); ("url", VObj [])])))))
  = [Put (updateShortURL "https://sho.rt/undefined")].
Proof.
  apply (delivered_keyword_is_rendered register_reducer "https://sho.rt/" "secret"
           "https:" "sourceacademy.org" _ false "abc" Example.store 120
           (VObj [("status", VStr "success"); ("url", VObj [])]) (VObj []) VUndefined);
    reflexivity.
Defined.

Lemma published_query_shape_witness :
  encode (fun s => s) (mkSnapshot "a & b" "default" "NONE" (mkNumber "2500"))
  = "exec=2500&ext=NONE&prgrm=a%20%26%20b&variant=default".
Proof.
  apply (published_query_shape (fun s => s) (mkSnapshot "a & b" "default" "NONE" (mkNumber "2500")));
    discriminate.
Defined.

Lemma encode_injective_witness :
  encode (fun s => s) (mkSnapshot "f(1);" "default" "NONE" (mkNumber "1000"))
  <> encode (fun s => s) (mkSnapshot "f(1);" "default" "NONE" (mkNumber "2000")).
Proof.
  intros E.
  pose proof (encode_injective (fun s => s) Some (fun s => eq_refl)
                (mkSnapshot "f(1);" "default" "NONE" (mkNumber "1000"))
                (mkSnapshot "f(1);" "default" "NONE" (mkNumber "2000"))) as H.
  assert ("1000" = "2000") as F.
  { apply H; first [exact E | discriminate]. }
  discriminate F.
Defined.

Lemma lz_overrides_prgrm_witness :
  ~ In (handleEditorValueChange "f(1);") (open_link "#lz=&prgrm=f%281%29%3B").
Proof.
  intros H.
  apply (lz_overrides_prgrm parseQuery_spec Some Example.decimal 1 "default"
           "#lz=&prgrm=f%281%29%3B" "" eq_refl "f(1);") in H.
  destruct H as [H _]. exact (H eq_refl).
Defined.

Lemma published_link_opens_witness :
  encode (fun s => s) (mkSnapshot "f(1);" "default" "NONE" (mkNumber "1e+21"))
    = "exec=1e%2B21&ext=NONE&prgrm=f%281%29%3B&variant=default" /\
  open_link (String "#" (encode (fun s => s)
                           (mkSnapshot "f(1);" "default" "NONE" (mkNumber "1e+21"))))
    = [handleEditorValueChange "f(1);"; handleChangeExecTime 1000] /\
  open_link (String "#" (encode (fun s => s)
                           (mkSnapshot "f(1);" "default" "NONE" (mkNumber "2500"))))
    = [handleEditorValueChange "f(1);"; handleChangeExecTime 2500].
Proof.
  split; [reflexivity|]. split.
  - apply (published_link_opens parseQuery_spec (fun s => s) Some Example.decimal 1 "default"
             (fun s => eq_refl) (fun s H => H) (fun query => eq_refl)
             (mkSnapshot "f(1);" "default" "NONE" (mkNumber "1e+21")));
      try discriminate; reflexivity.
  - apply (published_link_opens parseQuery_spec (fun s => s) Some Example.decimal 1 "default"
             (fun s => eq_refl) (fun s H => H) (fun query => eq_refl)
             (mkSnapshot "f(1);" "default" "NONE" (mkNumber "2500")));
      try discriminate; reflexivity.
Defined.

Lemma default_workspace_witness :
  updateQueryString register_reducer (fun s => s)
    (mkState (mkPlayground None None) (createDefaultWorkspace "default" "NONE" "sicp"))
  = (Normal tt,
     register_reducer
       (mkState (mkPlayground None None) (createDefaultWorkspace "default" "NONE" "sicp"))
       (changeQueryString ""),
     [Put (changeQueryString "")]).
Proof.
  apply (default_workspace_publishes_nothing register_reducer (fun s => s)
           "default" "NONE" "sicp"). reflexivity.
Defined.

Lemma breakpoints_keep_the_substituter_witness :
  ~ In (handleUsingSubst false)
       (onChangeTabs "subst_visualiser" "mobile_editor_run"
          (rerender (mkPage "subst_visualiser" false 2 7)
             (handleEditorUpdateBreakpoints "subst_visualiser"
                (mkPage "subst_visualiser" false 2 7)
                [None; Some "ace_breakpoint"]))
          "introduction" "subst_visualiser").
Proof.
  apply (breakpoints_keep_the_substituter "subst_visualiser" "mobile_editor_run"
           (mkPage "subst_visualiser" false 2 7) [None; Some "ace_breakpoint"]
           "introduction" "subst_visualiser").
  reflexivity.
Defined.

Lemma toggleTabs_settles_witness :
  toggleTabs "mobile_editor_run" "mobile_editor" "introduction" true
    (rerender (mkPage "introduction" false 1 7)
       (toggleTabs "mobile_editor_run" "mobile_editor" "introduction" true
          (mkPage "introduction" false 1 7)))
  = [].
Proof.
  apply (toggleTabs_settles "mobile_editor_run" "mobile_editor" "introduction" true
           (mkPage "introduction" false 1 7)); discriminate.
Defined.
